(** * singa_auto.container.kubernetes_operation

    A shallow embedding of [KubernetesContainerManager] and of the [_retry]
    decorator, with the properties the specification states about them.

    Layout of the development:
    - [Python]    : exceptions, outcomes, the state-and-exception monad,
                    JSON-like trees and the operations Python offers on them;
    - [Store]     : mutable dicts and lists behind references, with
                    [setdefault] and [append], and the view of an object
                    graph as a tree;
    - [Builders]  : [_create_deployment_config] and [_create_service_config];
    - [Cluster]   : the control plane as seen through the client library: the
                    calls it receives and what it answers;
    - [Manager]   : the other methods of the class and the decorator;
    - [Observe]   : what the statements are written with (reading a tree,
                    reading a trace) and the control planes they are tried on;
    - [Shape]     : the closed forms of the stores and trees the builders
                    produce;
    - [Account]   : what a run costs (waits, records, refusals) and what it
                    addresses;
    - [Setup]     : the constructor of the class and what it finds around it;
    - the lemmas and the theorems: first those the specification states,
      then further properties of the code. *)

From stdpp Require Import base option list strings pretty.
From Stdlib Require Import ZArith Lia.

Local Open Scope string_scope.
Local Open Scope list_scope.
Local Open Scope nat_scope.

(** ** Python: exceptions, outcomes and the monad of effectful code *)

Module Python.

(** JSON-like trees: the values a caller passes in as nested dicts and
    lists, and the view of a manifest once it is built. *)
#[warnings="-register-all"]
Inductive json : Type :=
| JNone
| JBool (b : bool)
| JInt (z : Z)
| JStr (s : string)
| JList (elems : list json)
| JDict (items : list (string * json)).

(** The exceptions that can travel through the module.  All of them are
    instances of Python's [Exception], the class [_retry] intercepts. *)
Inductive exn : Type :=
| ApiException (status : Z) (reason : string)   (* raised by the client library *)
| ServiceRequestError (msg : string)            (* class ServiceRequestError(Exception) *)
| KeyError (key : json)
| IndexError
| TypeError
| AttributeError
| ValueError (msg : string).

(** What a call does: it returns a value or raises. *)
Inductive outcome (A : Type) : Type :=
| Return (a : A)
| Raise (e : exn).
Arguments Return {A} a.
Arguments Raise {A} e.

Definition is_raise {A} (o : outcome A) : bool :=
  match o with Raise _ => true | Return _ => false end.

(** Code that reads and updates a state of type [S] and may raise. *)
Definition SE (S A : Type) : Type := S -> outcome A * S.

Definition ret {S A} (a : A) : SE S A := fun s => (Return a, s).

Definition raise {S A} (e : exn) : SE S A := fun s => (Raise e, s).

Definition bind {S A B} (m : SE S A) (k : A -> SE S B) : SE S B :=
  fun s => match m s with
           | (Return a, s') => k a s'
           | (Raise e, s') => (Raise e, s')
           end.

(** [try: m] runs [m] and hands its outcome over as a value
    (try ... except Exception as e). *)
Definition try {S A} (m : SE S A) : SE S (outcome A) :=
  fun s => let (o, s') := m s in (Return o, s').

(** Lifting of a pure computation that may raise. *)
Definition lift {S A} (o : outcome A) : SE S A := fun s => (o, s).

Declare Scope py_scope.
Delimit Scope py_scope with py.
Notation "'let*' x ':=' m 'in' k" := (bind m (fun x => k))
  (at level 10, x name, m at level 100, k at level 200) : py_scope.
Notation "m ';;;' k" := (bind m (fun _ => k))
  (at level 100, k at level 200, right associativity) : py_scope.

(** A dict keeps its items in insertion order; keys are strings. *)
Fixpoint dict_get {V} (key : string) (items : list (string * V)) : option V :=
  match items with
  | [] => None
  | (k, v) :: rest => if String.eqb k key then Some v else dict_get key rest
  end.

(** [str(n)] of a non-negative [int], and [int(z)] of an [int]. *)
Definition str (n : nat) : string := pretty n.
Definition int (z : Z) : Z := z.

(** The pure fragment: an expression that yields a value or raises. *)
Definition obind {A B} (o : outcome A) (k : A -> outcome B) : outcome B :=
  match o with
  | Return a => k a
  | Raise e => Raise e
  end.

Notation "'let+' x ':=' m 'in' k" := (obind m (fun x => k))
  (at level 10, x name, m at level 100, k at level 200) : py_scope.

(** [o[key]] for a [str] key: only a dict can be subscripted by a string. *)
Definition getitem (o : json) (key : string) : outcome json :=
  match o with
  | JDict items =>
      match dict_get key items with
      | Some v => Return v
      | None => Raise (KeyError (JStr key))
      end
  | _ => Raise TypeError
  end.

(** [o[0]]: the first element of a list, the first character of a string;
    a dict with string keys has no key [0]. *)
Definition getitem0 (o : json) : outcome json :=
  match o with
  | JList (x :: _) => Return x
  | JList [] => Raise IndexError
  | JStr (String a _) => Return (JStr (String a EmptyString))
  | JStr EmptyString => Raise IndexError
  | JDict _ => Raise (KeyError (JInt 0))
  | _ => Raise TypeError
  end.

(** [for x in o]: the elements of a list, the keys of a dict, the characters
    of a string. *)
Definition iter (o : json) : outcome (list json) :=
  match o with
  | JList elems => Return elems
  | JDict items => Return (map (fun kv => JStr kv.1) items)
  | JStr s => Return (map (fun a => JStr (String a EmptyString)) (String.list_ascii_of_string s))
  | _ => Raise TypeError
  end.

(** [x in names] for a list of strings. *)
Definition contains (x : string) (names : list string) : bool :=
  existsb (String.eqb x) names.

End Python.

Import Python.
Local Open Scope py_scope.

(** ** Store: mutable dicts and lists *)

Module Store.

Abbreviation loc := nat (only parsing).

(** A Python value is immutable ([int], [str]) or a reference to a mutable
    container. *)
Inductive value : Type :=
| VInt (z : Z)
| VStr (s : string)
| VRef (l : loc).

Inductive object : Type :=
| ODict (items : list (string * value))
| OList (elems : list value).

(** Objects are allocated at the end of the store and never freed. *)
Abbreviation heap := (list object).

Definition H := SE heap.

Definition alloc (o : object) : H value :=
  fun h => (Return (VRef (length h)), h ++ [o]).

(** A dict display [{k1: v1, ...}] and a list display [[v1, ...]]. *)
Definition new_dict (items : list (string * value)) : H value := alloc (ODict items).
Definition new_list (elems : list value) : H value := alloc (OList elems).

(** [d.setdefault(key, default)]: the value under [key] if there is one,
    else [default], which is then stored under [key] after the other items. *)
Definition setdefault (d : value) (key : string) (default : value) : H value :=
  fun h =>
    match d with
    | VRef l =>
        match h !! l with
        | Some (ODict items) =>
            match dict_get key items with
            | Some v => (Return v, h)
            | None => (Return default, <[l := ODict (items ++ [(key, default)])]> h)
            end
        | _ => (Raise AttributeError, h)
        end
    | _ => (Raise AttributeError, h)
    end.

(** [l.append(x)]. *)
Definition append (l : value) (x : value) : H unit :=
  fun h =>
    match l with
    | VRef a =>
        match h !! a with
        | Some (OList elems) => (Return tt, <[a := OList (elems ++ [x])]> h)
        | _ => (Raise AttributeError, h)
        end
    | _ => (Raise AttributeError, h)
    end.

(** The tree an object graph denotes, down to [fuel] levels of containers.
    References are followed at the time of the call, so an object that is
    reachable twice, or was updated after it was linked, shows its current
    content at every place. *)
Fixpoint snapshot (fuel : nat) (h : heap) (v : value) : option json :=
  match v with
  | VInt z => Some (JInt z)
  | VStr s => Some (JStr s)
  | VRef l =>
      match fuel with
      | O => None
      | S n =>
          match h !! l with
          | Some (ODict items) =>
              JDict <$> mapM (fun kv => pair kv.1 <$> snapshot n h kv.2) items
          | Some (OList elems) => JList <$> mapM (snapshot n h) elems
          | None => None
          end
      end
  end.

(** An object together with the store it lives in: what a callee receives
    when it is handed a dict. *)
Record graph : Type := Graph { store : heap; root : value }.

Definition DEPTH : nat := 16.

Definition tree_of (g : graph) : option json := snapshot DEPTH (store g) (root g).

End Store.

Import Store.

(** ** Manifest builders *)

Module Builders.

(** A mapping ([mounts], [environment_vars]) is given by its items, in the
    order in which the dict is iterated: the builders do nothing with a
    mapping but iterate over it.  [publish_port], when present, is the pair
    of its two elements. *)

(** for (k, v) in mounts.items(): ... mounts_count += 1 *)
Fixpoint mounts_loop (volumeMounts volumes : value) (items : list (string * string))
    (mounts_count : nat) : H nat :=
  match items with
  | [] => ret mounts_count
  | (k, v) :: rest =>
      let* m := new_dict [("name", VStr ("v" +:+ str mounts_count)); ("mountPath", VStr v)] in
      append volumeMounts m ;;;
      let* hp := new_dict [("path", VStr k)] in
      let* vol := new_dict [("name", VStr ("v" +:+ str mounts_count)); ("hostPath", hp)] in
      append volumes vol ;;;
      mounts_loop volumeMounts volumes rest (S mounts_count)
  end.

(** [{'name': k, 'value': v} for (k, v) in environment_vars.items()] *)
Fixpoint env_loop (env : value) (items : list (string * string)) : H unit :=
  match items with
  | [] => ret tt
  | (k, v) :: rest =>
      let* d := new_dict [("name", VStr k); ("value", VStr v)] in
      append env d ;;;
      env_loop env rest
  end.

Definition _create_deployment_config (service_name docker_image : string) (replicas : Z)
    (args : list string) (environment_vars mounts : list (string * string))
    (publish_port : option (Z * Z)) (gpus : Z) : H value :=
  let* content := new_dict [] in
  setdefault content "apiVersion" (VStr "apps/v1") ;;;
  setdefault content "kind" (VStr "Deployment") ;;;
  let* d := new_dict [] in
  let* metadata := setdefault content "metadata" d in
  setdefault metadata "name" (VStr service_name) ;;;
  let* d := new_dict [] in
  let* labels := setdefault metadata "labels" d in
  setdefault labels "name" (VStr service_name) ;;;
  let* d := new_dict [] in
  let* spec := setdefault content "spec" d in
  setdefault spec "replicas" (VInt replicas) ;;;
  let* ml := new_dict [("name", VStr service_name)] in
  let* sel := new_dict [("matchLabels", ml)] in
  setdefault spec "selector" sel ;;;
  let* d := new_dict [] in
  let* template := setdefault spec "template" d in
  let* lb := new_dict [("name", VStr service_name)] in
  let* md := new_dict [("labels", lb)] in
  setdefault template "metadata" md ;;;
  let* container := new_dict [] in
  setdefault container "name" (VStr service_name) ;;;
  setdefault container "image" (VStr docker_image) ;;;
  let* l := new_list [] in
  let* volumeMounts := setdefault container "volumeMounts" l in
  let* volumes := new_list [] in
  let* mounts_count := mounts_loop volumeMounts volumes mounts 0 in
  let* cs := new_list [container] in
  let* ts := new_dict [("containers", cs); ("volumes", volumes)] in
  setdefault template "spec" ts ;;;
  let* env := new_list [] in
  env_loop env environment_vars ;;;
  setdefault container "env" env ;;;
  (if (0 <? gpus)%Z then
     let* lim := new_dict [("nvidia.com/gpu", VInt gpus)] in
     let* res := new_dict [("limits", lim)] in
     setdefault container "resources" res ;;;
     ret tt
   else
     ret tt) ;;;
  ret content.

Definition _create_service_config (service_name docker_image : string) (replicas : Z)
    (args : list string) (environment_vars mounts : list (string * string))
    (publish_port : option (Z * Z)) (gpus : Z) : H value :=
  let* content := new_dict [] in
  setdefault content "apiVersion" (VStr "v1") ;;;
  setdefault content "kind" (VStr "Service") ;;;
  let* d := new_dict [] in
  let* metadata := setdefault content "metadata" d in
  setdefault metadata "name" (VStr service_name) ;;;
  let* d := new_dict [] in
  let* labels := setdefault metadata "labels" d in
  setdefault labels "name" (VStr service_name) ;;;
  let* d := new_dict [] in
  let* spec := setdefault content "spec" d in
  match publish_port with
  | Some p =>
      setdefault spec "type" (VStr "NodePort") ;;;
      let* l := new_list [] in
      let* ports := setdefault spec "ports" l in
      let* rule := new_dict [("port", VInt (int p.2)); ("targetPort", VInt (int p.2));
                             ("nodePort", VInt (int p.1))] in
      append ports rule
  | None => ret tt
  end ;;;
  let* sel := new_dict [("name", VStr service_name)] in
  setdefault spec "selector" sel ;;;
  ret content.

(** A builder starts from objects of its own: it is run on a store that
    holds nothing else, and its result is handed on with that store. *)
Definition build (b : H value) : outcome graph :=
  match b [] with
  | (Return v, h) => Return (Graph h v)
  | (Raise e, _) => Raise e
  end.

End Builders.

Import Builders.


(** ** Cluster: the control plane behind the client library *)

Module client.

(** The model classes of the client library that [update_ingress]
    instantiates.  A constructor stores what it is given, after it has
    checked (client-side validation, which is on unless switched off) that
    no required attribute is [None]. *)
Record NetworkingV1beta1IngressBackend : Type :=
  { service_port : json; service_name : json }.

Record NetworkingV1beta1HTTPIngressPath : Type :=
  { path : json; backend : NetworkingV1beta1IngressBackend }.

Record NetworkingV1beta1HTTPIngressRuleValue : Type :=
  { paths : list NetworkingV1beta1HTTPIngressPath }.

Record NetworkingV1beta1IngressRule : Type :=
  { http : NetworkingV1beta1HTTPIngressRuleValue }.

Record NetworkingV1beta1IngressSpec : Type :=
  { rules : list NetworkingV1beta1IngressRule }.

Record V1ObjectMeta : Type :=
  { name : string; annotations : list (string * string) }.

Record NetworkingV1beta1Ingress : Type :=
  { api_version : string;
    kind : string;
    metadata : V1ObjectMeta;
    spec : NetworkingV1beta1IngressSpec }.

Record NetworkingV1beta1IngressList : Type :=
  { items : list NetworkingV1beta1Ingress }.

Definition is_None (v : json) : bool :=
  match v with JNone => true | _ => false end.

(** [NetworkingV1beta1IngressBackend(service_name=..., service_port=...)]:
    both attributes are required; the constructor assigns, and checks,
    [service_name] first. *)
Definition NetworkingV1beta1IngressBackend__init__ (service_name service_port : json)
  : outcome NetworkingV1beta1IngressBackend :=
  if is_None service_name
  then Raise (ValueError "Invalid value for `service_name`, must not be `None`")
  else if is_None service_port
  then Raise (ValueError "Invalid value for `service_port`, must not be `None`")
  else Return {| service_port := service_port; service_name := service_name |}.

(** [NetworkingV1beta1HTTPIngressPath(path=..., backend=...)]: [backend] is
    required, and here it is an object; [path] is optional and is kept as
    it is, [None] included. *)
Definition NetworkingV1beta1HTTPIngressPath__init__ (path : json)
    (backend : NetworkingV1beta1IngressBackend) : outcome NetworkingV1beta1HTTPIngressPath :=
  Return {| path := path; backend := backend |}.

End client.

Module Cluster.

(** The methods of the three API handles that the manager calls, with their
    arguments. *)
Inductive api_call : Type :=
| create_namespaced_service (namespace : string) (body : graph)
| create_namespaced_deployment (namespace : string) (body : graph)
| delete_namespaced_deployment (name namespace : string)
| delete_namespaced_service (name namespace : string)
| list_namespaced_ingress_with_http_info (namespace : string)
| replace_namespaced_ingress_with_http_info (name namespace : string)
    (body : client.NetworkingV1beta1Ingress)
| create_namespaced_ingress_with_http_info (namespace : string)
    (body : client.NetworkingV1beta1Ingress).

(** What a method returns: the listing returns [(data, status)] (the headers
    are never read), the others an object that is never inspected. *)
Definition reply (c : api_call) : Type :=
  match c with
  | list_namespaced_ingress_with_http_info _ => (client.NetworkingV1beta1IngressList * Z)%type
  | _ => json
  end.

Inductive log_record : Type :=
| ErrorWhenCalling
| Traceback (e : exn)
| RetryingAfter (secs : nat).

(** What the process does that can be observed from outside, oldest first. *)
Inductive event : Type :=
| Invoked (c : api_call)
| LoggerError (r : log_record)
| LoggerInfo (r : log_record)
| Slept (secs : nat).

Abbreviation trace := (list event).

(** The control plane answers a call by a value or an exception; the answer
    may depend on everything that happened before. *)
Definition control_plane : Type := forall (history : trace) (c : api_call), outcome (reply c).

Definition M := SE trace.

Definition call (K : control_plane) (c : api_call) : M (reply c) :=
  fun w => (K w c, w ++ [Invoked c]).

Definition logger_error (r : log_record) : M unit := fun w => (Return tt, w ++ [LoggerError r]).
Definition logger_info (r : log_record) : M unit := fun w => (Return tt, w ++ [LoggerInfo r]).
Definition time_sleep (secs : nat) : M unit := fun w => (Return tt, w ++ [Slept secs]).

(** The calls among some events, in order. *)
Fixpoint invocations (evs : trace) : list api_call :=
  match evs with
  | [] => []
  | Invoked c :: rest => c :: invocations rest
  | _ :: rest => invocations rest
  end.

End Cluster.

Import Cluster.

(** ** Manager: KubernetesContainerManager and _retry *)

Module Manager.

Definition RETRY_WAIT_SECS : nat := 1.
Definition RETRY_TIMES : nat := 5.

(** Modelled from the spec: [ContainerService], the handle [create_service]
    returns; its class is imported from [container_manager], which is not
    among the sources.  The fields are those of section 3 of the
    specification, in the order of the constructor call. *)
Record ContainerService : Type :=
  { id : string;
    hostname : string;
    exposed_port : option Z;
    info : list (string * json) }.

(** The loop of [retried_func] over [range(RETRY_TIMES + 1)].  Falling out of
    the loop returns [None]. *)
Fixpoint retried_loop {R} (func : M R) (wait_secs : nat) (nos : list nat) : M (option R) :=
  match nos with
  | [] => ret None
  | no :: rest =>
      let* attempt := try func in
      match attempt with
      | Return r => ret (Some r)
      | Raise e =>
          logger_error ErrorWhenCalling ;;;
          logger_error (Traceback e) ;;;
          if Nat.eqb no RETRY_TIMES then raise e
          else
            logger_info (RetryingAfter wait_secs) ;;;
            time_sleep wait_secs ;;;
            retried_loop func wait_secs rest
      end
  end.

Definition _retry {R} (func : M R) : M (option R) :=
  let wait_secs := RETRY_WAIT_SECS in
  retried_loop func wait_secs (seq 0 (RETRY_TIMES + 1)).

(** The expression that builds [path_obj] from one [path_info]; keyword
    arguments are evaluated from left to right, and a constructor is called
    once its arguments are there: the backend first, then the path. *)
Definition path_obj_of (path_info : json) : outcome client.NetworkingV1beta1HTTPIngressPath :=
  let+ p := getitem path_info "path" in
  let+ b := getitem path_info "backend" in
  let+ port := getitem b "servicePort" in
  let+ b' := getitem path_info "backend" in
  let+ sname := getitem b' "serviceName" in
  let+ backend := client.NetworkingV1beta1IngressBackend__init__ sname port in
  client.NetworkingV1beta1HTTPIngressPath__init__ p backend.

Fixpoint paths_loop (path_infos : list json)
    (paths : list client.NetworkingV1beta1HTTPIngressPath)
  : outcome (list client.NetworkingV1beta1HTTPIngressPath) :=
  match path_infos with
  | [] => Return paths
  | path_info :: rest =>
      let+ path_obj := path_obj_of path_info in
      paths_loop rest (paths ++ [path_obj])
  end.

(** The iterable of the [for] statement,
    [ingress_body["spec"]["rules"][0]["http"]["paths"]], as the sequence of
    values the loop variable takes. *)
Definition path_infos_of (ingress_body : json) : outcome (list json) :=
  let+ spec := getitem ingress_body "spec" in
  let+ rules := getitem spec "rules" in
  let+ rule := getitem0 rules in
  let+ http := getitem rule "http" in
  let+ paths := getitem http "paths" in
  iter paths.

Definition _update_ingress_paths (ingress_body : json)
  : outcome (list client.NetworkingV1beta1HTTPIngressPath) :=
  let+ path_infos := path_infos_of ingress_body in
  paths_loop path_infos [].

(** The [body] that [update_ingress] submits.  None of the constructors
    called for it refuses what it is given here: the one required attribute
    among them, the [paths] of the rule value, is a list. *)
Definition ingress_manifest (ingress_name : string)
    (paths : list client.NetworkingV1beta1HTTPIngressPath) : client.NetworkingV1beta1Ingress :=
  {| client.api_version := "networking.k8s.io/v1beta1";
     client.kind := "Ingress";
     client.metadata :=
       {| client.name := ingress_name;
          client.annotations := [("nginx.ingress.kubernetes.io/rewrite-target", "/")] |};
     client.spec :=
       {| client.rules := [ {| client.http := {| client.paths := paths |} |} ] |} |}.

Definition update_ingress (self : control_plane) (ingress_name : string) (ingress_body : json)
  : M unit :=
  let* paths := lift (_update_ingress_paths ingress_body) in
  let body := ingress_manifest ingress_name paths in
  let* ingress_list := call self (list_namespaced_ingress_with_http_info "default") in
  if negb (ingress_list.2 =? 200)%Z then
    raise (ServiceRequestError "ingress response code is not 200")
  else
    let ingress_names :=
      map (fun ele => client.name (client.metadata ele)) (client.items ingress_list.1) in
    if contains ingress_name ingress_names then
      call self (replace_namespaced_ingress_with_http_info ingress_name "default" body) ;;;
      ret tt
    else
      call self (create_namespaced_ingress_with_http_info "default" body) ;;;
      ret tt.

Definition destroy_service (self : control_plane) (service : ContainerService) : M unit :=
  call self (delete_namespaced_deployment (id service) "default") ;;;
  call self (delete_namespaced_service (id service) "default") ;;;
  ret tt.

Definition create_service (self : control_plane) (service_name docker_image : string)
    (replicas : Z) (args : list string) (environment_vars mounts : list (string * string))
    (publish_port : option (Z * Z)) (gpus : Z) : M ContainerService :=
  let hostname := service_name in
  match publish_port with
  | Some _ =>
      let* service_config :=
        lift (build (_create_service_config service_name docker_image replicas args
                       environment_vars mounts publish_port gpus)) in
      let* service_obj :=
        _retry (call self (create_namespaced_service "default" service_config)) in
      ret tt
  | None => ret tt
  end ;;;
  let* deployment_config :=
    lift (build (_create_deployment_config service_name docker_image replicas args
                   environment_vars mounts publish_port gpus)) in
  let* deployment_obj :=
    _retry (call self (create_namespaced_deployment "default" deployment_config)) in
  let info :=
    [("node_id", JStr "default"); ("gpu_nos", JInt gpus);
     ("service_name", JStr service_name); ("replicas", JInt replicas)] in
  ret {| id := service_name;
         hostname := hostname;
         exposed_port := match publish_port with Some p => Some p.1 | None => None end;
         info := info |}.

End Manager.

Import Manager.

(** ** Observations: what the statements below are written with *)

Module Observe.

(** Reading a tree. *)
Definition jget (key : string) (j : json) : option json :=
  match j with
  | JDict items => dict_get key items
  | _ => None
  end.

Fixpoint jpath (keys : list string) (j : json) : option json :=
  match keys with
  | [] => Some j
  | key :: rest =>
      match jget key j with
      | Some j' => jpath rest j'
      | None => None
      end
  end.

Definition jkeys (j : json) : list string :=
  match j with
  | JDict items => map fst items
  | _ => []
  end.

(** Reading a trace.  An exchange is a call together with whether the
    control plane answered it without raising. *)
Fixpoint exchanges (K : control_plane) (w evs : trace) : list (api_call * bool) :=
  match evs with
  | [] => []
  | Invoked c :: rest => (c, negb (is_raise (K w c))) :: exchanges K (w ++ [Invoked c]) rest
  | ev :: rest => exchanges K (w ++ [ev]) rest
  end.

(** A retried call as it shows in the exchanges: failures, then one success
    unless the budget ran out. *)
Definition attempts (c : api_call) (failures : nat) (ok : bool) : list (api_call * bool) :=
  repeat (c, false) failures ++ (if ok then [(c, true)] else []).

Definition within_budget (failures : nat) (ok : bool) : Prop :=
  if ok then failures <= RETRY_TIMES else failures = RETRY_TIMES + 1.

(** What one failed attempt leaves in the trace, when another attempt
    follows and when it was the last one. *)
Definition failed_attempt (c : api_call) (e : exn) (secs : nat) : trace :=
  [Invoked c; LoggerError ErrorWhenCalling; LoggerError (Traceback e);
   LoggerInfo (RetryingAfter secs); Slept secs].

Definition last_attempt (c : api_call) (e : exn) : trace :=
  [Invoked c; LoggerError ErrorWhenCalling; LoggerError (Traceback e)].

(** The runs of a retried call with a budget of attempts: outcome and events. *)
Inductive retry_run (K : control_plane) (c : api_call) (secs : nat)
  : trace -> nat -> outcome (option (reply c)) -> trace -> Prop :=
| run_return w n v :
    K w c = Return v ->
    retry_run K c secs w (S n) (Return (Some v)) [Invoked c]
| run_exhausted w e :
    K w c = Raise e ->
    retry_run K c secs w 1 (Raise e) (last_attempt c e)
| run_again w n e r evs :
    K w c = Raise e ->
    retry_run K c secs (w ++ failed_attempt c e secs) (S n) r evs ->
    retry_run K c secs w (S (S n)) r (failed_attempt c e secs ++ evs).

(** The verbs of the control plane. *)
Inductive verb : Type :=
| CreateService | CreateWorkload | DeleteWorkload | DeleteService
| ListRules | ReplaceRule | CreateRule.

Definition verb_of (c : api_call) : verb :=
  match c with
  | create_namespaced_service _ _ => CreateService
  | create_namespaced_deployment _ _ => CreateWorkload
  | delete_namespaced_deployment _ _ => DeleteWorkload
  | delete_namespaced_service _ _ => DeleteService
  | list_namespaced_ingress_with_http_info _ => ListRules
  | replace_namespaced_ingress_with_http_info _ _ _ => ReplaceRule
  | create_namespaced_ingress_with_http_info _ _ => CreateRule
  end.

Definition verb_eqb (a b : verb) : bool :=
  match a, b with
  | CreateService, CreateService | CreateWorkload, CreateWorkload
  | DeleteWorkload, DeleteWorkload | DeleteService, DeleteService
  | ListRules, ListRules | ReplaceRule, ReplaceRule | CreateRule, CreateRule => true
  | _, _ => false
  end.

(** How many times a verb was invoked among some events. *)
Fixpoint count_verb (v : verb) (calls : list api_call) : nat :=
  match calls with
  | [] => 0
  | c :: rest => (if verb_eqb (verb_of c) v then 1 else 0) + count_verb v rest
  end.

Definition times (v : verb) (evs : trace) : nat := count_verb v (invocations evs).

(** A call that went without retry: nothing but invocations was observed,
    no verb was invoked twice, and an invocation that failed was the last
    one, its error being the outcome of the whole call. *)
Definition unretried {A} (K : control_plane) (w evs : trace) (r : outcome A) : Prop :=
  (forall ev, In ev evs -> exists c, ev = Invoked c)
  /\ (forall c, In c (invocations evs) -> times (verb_of c) evs = 1)
  /\ (forall pre c post e,
        evs = pre ++ Invoked c :: post -> K (w ++ pre) c = Raise e ->
        post = [] /\ r = Raise e).

(** [ingress_body["spec"]["rules"]]. *)
Definition ingress_rules (ingress_body : json) : outcome json :=
  let+ spec := getitem ingress_body "spec" in
  getitem spec "rules".

(** The rule sets of the manifests that some calls submit. *)
Definition submitted_rules (c : api_call) : option (list client.NetworkingV1beta1IngressRule) :=
  match c with
  | replace_namespaced_ingress_with_http_info _ _ body
  | create_namespaced_ingress_with_http_info _ body => Some (client.rules (client.spec body))
  | _ => None
  end.

(** Whether a string occurs as a value somewhere in a tree. *)
Fixpoint mentions (s : string) (j : json) : bool :=
  match j with
  | JStr s' => String.eqb s s'
  | JList elems => existsb (mentions s) elems
  | JDict items => existsb (fun kv => mentions s kv.2) items
  | _ => false
  end.

(** Control planes to try the statements on.  [accepted] is the answer of
    one that accepts a call; [down_for k] is down for the first [k] calls it
    receives and accepts everything afterwards; [always_down] never
    answers; [refusing v] refuses the calls of one verb and accepts the
    others; [listing live status] answers the listing with the given live
    names and status. *)
Definition accepted (c : api_call) : reply c :=
  match c with
  | list_namespaced_ingress_with_http_info _ => ({| client.items := [] |}, 200%Z)
  | _ => JStr "ok"
  end.

Definition down_for (k : nat) : control_plane :=
  fun history c =>
    if length (invocations history) <? k
    then Raise (ApiException 503 "Service Unavailable")
    else Return (accepted c).

Definition always_down : control_plane :=
  fun history c => Raise (ApiException 503 "Service Unavailable").

Definition refusing (v : verb) : control_plane :=
  fun history c =>
    if verb_eqb (verb_of c) v
    then Raise (ApiException 500 "Internal Server Error")
    else Return (accepted c).

Definition listing (live : list string) (status : Z) : control_plane :=
  fun history c =>
    match c with
    | list_namespaced_ingress_with_http_info _ =>
        Return ({| client.items :=
                     map (fun n => ingress_manifest n []) live |}, status)
    | _ => Return (JStr "ok")
    end.

(** Rule-set bodies as a caller writes them: a path rule, a rule holding
    path rules, a body holding rules. *)
Definition path_info (p backend_name : string) (port : Z) : json :=
  JDict [("path", JStr p);
         ("backend", JDict [("serviceName", JStr backend_name); ("servicePort", JInt port)])].

Definition rule_of (path_infos : list json) : json :=
  JDict [("http", JDict [("paths", JList path_infos)])].

Definition body_of (rules : list json) : json :=
  JDict [("spec", JDict [("rules", JList rules)])].

End Observe.

Import Observe.

(** ** Closed forms of what the builders leave in the store *)

Module Shape.

(** [n] references, [step] apart, from [base] on. *)
Fixpoint stride_refs (base step n : nat) : list value :=
  match n with
  | O => []
  | S n' => VRef base :: stride_refs (base + step) step n'
  end.

(** The three dicts each mount allocates: the volume mount, the host path,
    the volume. *)
Fixpoint mount_objs (base c : nat) (items : list (string * string)) : list object :=
  match items with
  | [] => []
  | (k, v) :: rest =>
      ODict [("name", VStr ("v" +:+ str c)); ("mountPath", VStr v)]
      :: ODict [("path", VStr k)]
      :: ODict [("name", VStr ("v" +:+ str c)); ("hostPath", VRef (base + 1))]
      :: mount_objs (base + 3) (S c) rest
  end.

Definition env_objs (items : list (string * string)) : list object :=
  (fun kv => ODict [("name", VStr kv.1); ("value", VStr kv.2)]) <$> items.

(** The store [_create_deployment_config] leaves, in three parts: the twelve
    objects allocated before the loop over the mounts, in their final state;
    the objects of the loop; the objects allocated after it. *)
Definition deployment_head (service_name docker_image : string) (replicas : Z)
    (N E : nat) (gpus : Z) : heap :=
  [ ODict [("apiVersion", VStr "apps/v1"); ("kind", VStr "Deployment");
           ("metadata", VRef 1); ("spec", VRef 3)];
    ODict [("name", VStr service_name); ("labels", VRef 2)];
    ODict [("name", VStr service_name)];
    ODict [("replicas", VInt replicas); ("selector", VRef 5); ("template", VRef 6)];
    ODict [("name", VStr service_name)];
    ODict [("matchLabels", VRef 4)];
    ODict [("metadata", VRef 8); ("spec", VRef (13 + 3 * N))];
    ODict [("name", VStr service_name)];
    ODict [("labels", VRef 7)];
    ODict ([("name", VStr service_name); ("image", VStr docker_image);
            ("volumeMounts", VRef 10); ("env", VRef (14 + 3 * N))]
           ++ if (0 <? gpus)%Z then [("resources", VRef (16 + 3 * N + E))] else []);
    OList (stride_refs 12 3 N);
    OList (stride_refs 14 3 N) ].

Definition deployment_tail (environment_vars : list (string * string)) (N : nat) (gpus : Z)
  : heap :=
  let E := length environment_vars in
  [ OList [VRef 9];
    ODict [("containers", VRef (12 + 3 * N)); ("volumes", VRef 11)];
    OList (stride_refs (15 + 3 * N) 1 E) ]
  ++ env_objs environment_vars
  ++ (if (0 <? gpus)%Z
      then [ ODict [("nvidia.com/gpu", VInt gpus)];
             ODict [("limits", VRef (15 + 3 * N + E))] ]
      else []).

Definition deployment_heap (service_name docker_image : string) (replicas : Z)
    (environment_vars mounts : list (string * string)) (gpus : Z) : heap :=
  deployment_head service_name docker_image replicas
    (length mounts) (length environment_vars) gpus
  ++ mount_objs 12 0 mounts
  ++ deployment_tail environment_vars (length mounts) gpus.

Definition service_heap (service_name : string) (publish_port : option (Z * Z)) : heap :=
  [ ODict [("apiVersion", VStr "v1"); ("kind", VStr "Service");
           ("metadata", VRef 1); ("spec", VRef 3)];
    ODict [("name", VStr service_name); ("labels", VRef 2)];
    ODict [("name", VStr service_name)] ]
  ++ match publish_port with
     | Some (p0, p1) =>
         [ ODict [("type", VStr "NodePort"); ("ports", VRef 4); ("selector", VRef 6)];
           OList [VRef 5];
           ODict [("port", VInt p1); ("targetPort", VInt p1); ("nodePort", VInt p0)];
           ODict [("name", VStr service_name)] ]
     | None =>
         [ ODict [("selector", VRef 4)];
           ODict [("name", VStr service_name)] ]
     end.

(** The entries of the manifest that come from one mount and from one
    environment variable. *)
Definition mount_entry (i : nat) (kv : string * string) : json :=
  JDict [("name", JStr ("v" +:+ str i)); ("mountPath", JStr kv.2)].

Definition volume_entry (i : nat) (kv : string * string) : json :=
  JDict [("name", JStr ("v" +:+ str i)); ("hostPath", JDict [("path", JStr kv.1)])].

Definition env_entry (kv : string * string) : json :=
  JDict [("name", JStr kv.1); ("value", JStr kv.2)].

Definition container_tree (service_name docker_image : string)
    (environment_vars mounts : list (string * string)) (gpus : Z) : json :=
  JDict
    ([("name", JStr service_name); ("image", JStr docker_image);
      ("volumeMounts", JList (imap mount_entry mounts));
      ("env", JList (env_entry <$> environment_vars))]
     ++ if (0 <? gpus)%Z
        then [("resources", JDict [("limits", JDict [("nvidia.com/gpu", JInt gpus)])])]
        else []).

Definition deployment_tree (service_name docker_image : string) (replicas : Z)
    (environment_vars mounts : list (string * string)) (gpus : Z) : json :=
  JDict
    [("apiVersion", JStr "apps/v1"); ("kind", JStr "Deployment");
     ("metadata", JDict [("name", JStr service_name);
                         ("labels", JDict [("name", JStr service_name)])]);
     ("spec", JDict
        [("replicas", JInt replicas);
         ("selector", JDict [("matchLabels", JDict [("name", JStr service_name)])]);
         ("template", JDict
            [("metadata", JDict [("labels", JDict [("name", JStr service_name)])]);
             ("spec", JDict
                [("containers",
                  JList [container_tree service_name docker_image environment_vars mounts gpus]);
                 ("volumes", JList (imap volume_entry mounts))])])])].

Definition service_tree (service_name : string) (publish_port : option (Z * Z)) : json :=
  JDict
    [("apiVersion", JStr "v1"); ("kind", JStr "Service");
     ("metadata", JDict [("name", JStr service_name);
                         ("labels", JDict [("name", JStr service_name)])]);
     ("spec", JDict
        (match publish_port with
         | Some (p0, p1) =>
             [("type", JStr "NodePort");
              ("ports", JList [JDict [("port", JInt p1); ("targetPort", JInt p1);
                                      ("nodePort", JInt p0)]])]
         | None => []
         end ++ [("selector", JDict [("name", JStr service_name)])]))].

End Shape.

Import Shape.

(** ** Account: what a run costs and whom it addresses *)

Module Account.

(** The seconds spent in [time.sleep] among some events. *)
Fixpoint slept (evs : trace) : nat :=
  match evs with
  | [] => 0
  | Slept secs :: rest => secs + slept rest
  | _ :: rest => slept rest
  end.

(** The records handed to [logger.error] and to [logger.info], in order. *)
Fixpoint errors_logged (evs : trace) : list log_record :=
  match evs with
  | [] => []
  | LoggerError r :: rest => r :: errors_logged rest
  | _ :: rest => errors_logged rest
  end.

Fixpoint infos_logged (evs : trace) : list log_record :=
  match evs with
  | [] => []
  | LoggerInfo r :: rest => r :: infos_logged rest
  | _ :: rest => infos_logged rest
  end.

(** How many of some exchanges the control plane refused. *)
Fixpoint refused (xs : list (api_call * bool)) : nat :=
  match xs with
  | [] => 0
  | (_, ok) :: rest => (if ok then 0 else 1) + refused rest
  end.

(** The namespace a call addresses. *)
Definition namespace_of (c : api_call) : string :=
  match c with
  | create_namespaced_service namespace _
  | create_namespaced_deployment namespace _
  | delete_namespaced_deployment _ namespace
  | delete_namespaced_service _ namespace
  | list_namespaced_ingress_with_http_info namespace
  | replace_namespaced_ingress_with_http_info _ namespace _
  | create_namespaced_ingress_with_http_info namespace _ => namespace
  end.

(** The manifest a call on the rule sets submits, and the name of the rule
    set that a replace addresses. *)
Definition submitted_body (c : api_call) : option client.NetworkingV1beta1Ingress :=
  match c with
  | replace_namespaced_ingress_with_http_info _ _ body
  | create_namespaced_ingress_with_http_info _ body => Some body
  | _ => None
  end.

Definition replaced_name (c : api_call) : option string :=
  match c with
  | replace_namespaced_ingress_with_http_info name _ _ => Some name
  | _ => None
  end.

(** The four ways a call of [update_ingress] can go: the body cannot be
    converted; the listing raises; the listing answers with another status
    than 200; the rule set is written, by a replace or a create. *)
Inductive ingress_run (K : control_plane) (ingress_name : string) (ingress_body : json)
    (w : trace) : outcome unit -> trace -> Prop :=
| ingress_bad_body e :
    _update_ingress_paths ingress_body = Raise e ->
    ingress_run K ingress_name ingress_body w (Raise e) []
| ingress_no_listing paths e :
    _update_ingress_paths ingress_body = Return paths ->
    K w (list_namespaced_ingress_with_http_info "default") = Raise e ->
    ingress_run K ingress_name ingress_body w (Raise e)
      [Invoked (list_namespaced_ingress_with_http_info "default")]
| ingress_bad_status paths data status :
    _update_ingress_paths ingress_body = Return paths ->
    K w (list_namespaced_ingress_with_http_info "default") = Return (data, status) ->
    status <> 200%Z ->
    ingress_run K ingress_name ingress_body w
      (Raise (ServiceRequestError "ingress response code is not 200"))
      [Invoked (list_namespaced_ingress_with_http_info "default")]
| ingress_written paths data c :
    _update_ingress_paths ingress_body = Return paths ->
    K w (list_namespaced_ingress_with_http_info "default") = Return (data, 200%Z) ->
    c = (if contains ingress_name
              (map (fun ele => client.name (client.metadata ele)) (client.items data))
         then replace_namespaced_ingress_with_http_info ingress_name "default"
                (ingress_manifest ingress_name paths)
         else create_namespaced_ingress_with_http_info "default"
                (ingress_manifest ingress_name paths)) ->
    ingress_run K ingress_name ingress_body w
      (match K (w ++ [Invoked (list_namespaced_ingress_with_http_info "default")]) c with
       | Return _ => Return tt
       | Raise e => Raise e
       end)
      [Invoked (list_namespaced_ingress_with_http_info "default"); Invoked c].

End Account.


(** ** Setup: KubernetesContainerManager.__init__ *)

Module Setup.

(** What the constructor finds around it: the text files of the pod and the
    environment of the process.  Reading a file to its end in text mode
    gives its content or raises ([FileNotFoundError], [PermissionError],
    [UnicodeDecodeError], ...: the exception is kept by the name of its
    class). *)
Inductive read (A : Type) : Type :=
| Content (a : A)
| Raised (exception : string).
Arguments Content {A} a.
Arguments Raised {A} exception.

Definition is_raised {A} (r : read A) : bool :=
  match r with Raised _ => true | Content _ => false end.

Record surroundings : Type :=
  { files : string -> read string;
    environ : list (string * string) }.

(** [os.getenv(key)]: the value of the variable, [None] when it is not set. *)
Definition getenv (s : surroundings) (key : string) : option string :=
  dict_get key (environ s).

(** What a replacement field [{}] of [str.format] shows for the value of
    [os.getenv]: the string itself, or [None]. *)
Definition format_field (v : option string) : string :=
  match v with
  | Some s => s
  | None => "None"
  end.

(** Of [client.Configuration], the attributes the constructor assigns. *)
Record Configuration : Type :=
  { host : string;
    verify_ssl : bool;
    api_key : list (string * string) }.

Record ApiClient : Type := { configuration : Configuration }.

(** The three API handles, each built over an [ApiClient]. *)
Inductive api : Type :=
| AppsV1Api (api_client : ApiClient)
| CoreV1Api (api_client : ApiClient)
| NetworkingV1beta1Api (api_client : ApiClient).

Definition api_client_of (a : api) : ApiClient :=
  match a with
  | AppsV1Api c | CoreV1Api c | NetworkingV1beta1Api c => c
  end.

Record KubernetesContainerManager : Type :=
  { _client_deployment : api;
    _client_service : api;
    api_instance : api }.

Definition __init__ (s : surroundings) : read KubernetesContainerManager :=
  match files s "/var/run/secrets/kubernetes.io/serviceaccount/token" with
  | Raised exception => Raised exception
  | Content aToken =>
      let aConfiguration :=
        {| host := "https://" +:+ format_field (getenv s "KUBERNETES_SERVICE_HOST")
                   +:+ ":" +:+ format_field (getenv s "KUBERNETES_SERVICE_PORT");
           verify_ssl := false;
           api_key := [("authorization", "Bearer " +:+ aToken)] |} in
      let aApiClient := {| configuration := aConfiguration |} in
      Content {| _client_deployment := AppsV1Api aApiClient;
                 _client_service := CoreV1Api aApiClient;
                 api_instance := NetworkingV1beta1Api aApiClient |}
  end.

(** Setting a variable in an environment. *)
Definition setenv (key value : string) (s : surroundings) : surroundings :=
  {| files := files s; environ := (key, value) :: environ s |}.

End Setup.

(** ** Lemmas on the store *)

Section StoreLemmas.

Lemma bind_Return {S A B} (m : SE S A) (k : A -> SE S B) s a s' :
  m s = (Return a, s') -> bind m k s = k a s'.
Proof. unfold bind. by intros ->. Qed.

Lemma alloc_run o (h : heap) : alloc o h = (Return (VRef (length h)), h ++ [o]).
Proof. done. Qed.

Lemma append_run (h t : heap) a es x :
  h !! a = Some (OList es) ->
  append (VRef a) x (h ++ t) = (Return (), <[a := OList (es ++ [x])]> h ++ t).
Proof.
  intros Ha. unfold append. rewrite (lookup_app_l_Some _ _ _ _ Ha).
  by rewrite insert_app_l by (by eapply lookup_lt_Some).
Qed.

Lemma setdefault_fresh (h t : heap) l items key v :
  h !! l = Some (ODict items) -> dict_get key items = None ->
  setdefault (VRef l) key v (h ++ t) = (Return v, <[l := ODict (items ++ [(key, v)])]> h ++ t).
Proof.
  intros Hl Hk. unfold setdefault. rewrite (lookup_app_l_Some _ _ _ _ Hl), Hk.
  by rewrite insert_app_l by (by eapply lookup_lt_Some).
Qed.

Lemma mapM_cons_Some {A B} (f : A -> option B) x l y k :
  f x = Some y -> mapM f l = Some k -> mapM f (x :: l) = Some (y :: k).
Proof. intros Hx Hl. cbn. by rewrite Hx, Hl. Qed.

Lemma snapshot_str n (h : heap) s : snapshot n h (VStr s) = Some (JStr s).
Proof. by destruct n. Qed.

Lemma snapshot_int n (h : heap) z : snapshot n h (VInt z) = Some (JInt z).
Proof. by destruct n. Qed.

Lemma snapshot_dict n (h : heap) l items :
  h !! l = Some (ODict items) ->
  snapshot (S n) h (VRef l) = JDict <$> mapM (fun kv => pair kv.1 <$> snapshot n h kv.2) items.
Proof. intros Hl. cbn [snapshot]. by rewrite Hl. Qed.

Lemma snapshot_list n (h : heap) l elems :
  h !! l = Some (OList elems) ->
  snapshot (S n) h (VRef l) = JList <$> mapM (snapshot n h) elems.
Proof. intros Hl. cbn [snapshot]. by rewrite Hl. Qed.

Lemma lookup_app_offset {A} (l1 l2 : list A) i j :
  i = length l1 + j -> (l1 ++ l2) !! i = l2 !! j.
Proof. intros ->. rewrite lookup_app_r by lia. f_equal. lia. Qed.

End StoreLemmas.

(** ** The builders, run symbolically *)

Section BuilderLemmas.

Lemma length_mount_objs items : forall base c, length (mount_objs base c items) = 3 * length items.
Proof. induction items as [|[k v] r IH]; intros; simpl; [done|]. rewrite IH. lia. Qed.

Lemma length_env_objs items : length (env_objs items) = length items.
Proof. unfold env_objs. by rewrite length_fmap. Qed.

Lemma mounts_loop_run items : forall c (h : heap) lm lv ms vs,
  lm ≠ lv -> h !! lm = Some (OList ms) -> h !! lv = Some (OList vs) ->
  mounts_loop (VRef lm) (VRef lv) items c h =
    (Return (c + length items),
     <[lm := OList (ms ++ stride_refs (length h) 3 (length items))]>
       (<[lv := OList (vs ++ stride_refs (length h + 2) 3 (length items))]> h)
     ++ mount_objs (length h) c items).
Proof.
  induction items as [|[k v] rest IH]; intros c h lm lv ms vs Hne Hm Hv.
  - simpl. rewrite !app_nil_r. unfold ret. f_equal; [f_equal; lia|].
    rewrite (list_insert_id _ _ _ Hv), (list_insert_id _ _ _ Hm). done.
  - assert (Hlm : lm < length h) by (by eapply lookup_lt_Some).
    assert (Hlv : lv < length h) by (by eapply lookup_lt_Some).
    cbn [mounts_loop]. unfold new_dict.
    rewrite (bind_Return _ _ _ _ _ (alloc_run _ _)).
    rewrite (bind_Return _ _ _ _ _ (append_run _ _ _ _ _ Hm)).
    rewrite (bind_Return _ _ _ _ _ (alloc_run _ _)).
    rewrite (bind_Return _ _ _ _ _ (alloc_run _ _)).
    rewrite !length_app, length_insert. cbn [length].
    rewrite <- !app_assoc. cbn [app].
    assert (Hv' : <[lm:=OList (ms ++ [VRef (length h)])]> h !! lv = Some (OList vs))
      by (by rewrite list_lookup_insert_ne).
    rewrite (bind_Return _ _ _ _ _ (append_run _ _ _ _ _ Hv')).
    rewrite (IH _ _ lm lv (ms ++ [VRef (length h)]) (vs ++ [VRef (length h + 1 + 1)]) Hne).
    2: { apply lookup_app_l_Some. rewrite list_lookup_insert_ne by done.
         by apply list_lookup_insert_eq. }
    2: { apply lookup_app_l_Some. apply list_lookup_insert_eq. by rewrite length_insert. }
    rewrite !length_app, !length_insert. cbn [length mount_objs stride_refs].
    f_equal; [f_equal; lia|].
    rewrite !insert_app_l by (rewrite ?length_insert; lia).
    rewrite list_insert_insert_eq.
    rewrite (list_insert_insert_ne _ lv lm) by done.
    rewrite list_insert_insert_eq.
    rewrite <- !app_assoc. cbn [app].
    replace (length h + 1 + 1) with (length h + 2) by lia.
    replace (length h + 3 + 2) with (length h + 2 + 3) by lia.
    done.
Qed.

Lemma env_loop_run items : forall (h : heap) le es,
  h !! le = Some (OList es) ->
  env_loop (VRef le) items h =
    (Return (), <[le := OList (es ++ stride_refs (length h) 1 (length items))]> h ++ env_objs items).
Proof.
  induction items as [|[k v] rest IH]; intros h le es He.
  - simpl. rewrite !app_nil_r. by rewrite (list_insert_id _ _ _ He).
  - assert (Hle : le < length h) by (by eapply lookup_lt_Some).
    cbn [env_loop]. unfold new_dict.
    rewrite (bind_Return _ _ _ _ _ (alloc_run _ _)).
    rewrite (bind_Return _ _ _ _ _ (append_run _ _ _ _ _ He)).
    rewrite (IH _ le (es ++ [VRef (length h)])).
    2: { apply lookup_app_l_Some. by apply list_lookup_insert_eq. }
    rewrite !length_app, !length_insert. cbn [length stride_refs env_objs fmap list_fmap].
    rewrite !insert_app_l by (rewrite ?length_insert; lia).
    rewrite list_insert_insert_eq.
    rewrite <- !app_assoc. done.
Qed.

Lemma env_loop_fresh items (h0 : heap) es :
  env_loop (VRef (length h0)) items (h0 ++ [OList es]) =
    (Return (),
     h0 ++ [OList (es ++ stride_refs (S (length h0)) 1 (length items))] ++ env_objs items).
Proof.
  rewrite (env_loop_run items _ _ es) by (by apply list_lookup_middle).
  rewrite length_app. cbn [length].
  replace (length h0) with (length h0 + 0) at 1 by lia.
  rewrite insert_app_r. cbn [insert list_insert].
  replace (length h0 + 1) with (S (length h0)) by lia.
  by rewrite <- app_assoc.
Qed.

End BuilderLemmas.

Ltac norm_len HP :=
  rewrite ?length_app, ?length_insert, ?length_mount_objs, ?length_env_objs, ?HP;
  cbn [length].

Ltac run_alloc HP :=
  rewrite (bind_Return _ _ _ _ _ (alloc_run _ _)); cbv beta; rewrite <- ?app_assoc;
  norm_len HP.

Ltac run_setdefault l :=
  match goal with
  | |- bind (setdefault (VRef l) ?k ?v) _ (?p ++ ?t) = _ =>
      rewrite (bind_Return _ _ _ _ _ (setdefault_fresh p t l _ k v eq_refl eq_refl)); cbv beta
  end.

Lemma deployment_run service_name docker_image replicas args environment_vars mounts publish_port gpus :
  _create_deployment_config service_name docker_image replicas args environment_vars mounts publish_port gpus []
  = (Return (VRef 0), deployment_heap service_name docker_image replicas environment_vars mounts gpus).
Proof.
  unfold _create_deployment_config.
  cbn -[mounts_loop env_loop Z.ltb str String.append].
  match goal with |- bind _ _ ?h = _ => set (P := h);
    rewrite (bind_Return _ _ _ _ _ (mounts_loop_run mounts 0 P 10 11 [] [] ltac:(done) eq_refl eq_refl))
  end.
  assert (HP : length P = 12) by done.
  cbv beta. unfold new_list, new_dict. norm_len HP.
  run_alloc HP. run_alloc HP.
  run_setdefault 6.
  rewrite (bind_Return _ _ _ _ _ (alloc_run _ _)); cbv beta.
  rewrite (bind_Return _ _ _ _ _ (env_loop_fresh _ _ _)); cbv beta.
  rewrite <- ?app_assoc. norm_len HP.
  run_setdefault 9.
  unfold deployment_heap, deployment_head, deployment_tail.
  destruct (0 <? gpus)%Z.
  - erewrite bind_Return.
    2: { run_alloc HP. run_alloc HP. run_setdefault 9. reflexivity. }
    unfold ret. subst P.
    cbn -[mount_objs stride_refs env_objs Nat.add Nat.mul str String.append].
    repeat (f_equal; try lia).
  - unfold bind, ret. subst P. rewrite ?app_nil_r.
    cbn -[mount_objs stride_refs env_objs Nat.add Nat.mul str String.append].
    repeat (f_equal; try lia).
Qed.

Lemma snapshot_mount_refs items : forall (A B : heap) c n,
  mapM (snapshot (S n) (A ++ mount_objs (length A) c items ++ B))
       (stride_refs (length A) 3 (length items))
  = Some (imap (fun i => mount_entry (c + i)) items).
Proof.
  induction items as [|[k v] rest IH]; intros A B c n; [done|].
  cbn [mount_objs length stride_refs imap app].
  apply mapM_cons_Some.
  - cbn [snapshot]. rewrite list_lookup_middle by done. cbn.
    rewrite !snapshot_str. cbn. by rewrite Nat.add_0_r.
  - specialize (IH (A ++ [ODict [("name", VStr ("v" +:+ str c)); ("mountPath", VStr v)];
                          ODict [("path", VStr k)];
                          ODict [("name", VStr ("v" +:+ str c)); ("hostPath", VRef (length A + 1))]])
                   B (S c) n).
    rewrite length_app in IH. cbn [length] in IH.
    rewrite <- !app_assoc in IH. cbn [app] in IH. rewrite IH.
    f_equal. apply imap_ext. intros i x _. cbn. f_equal. f_equal. f_equal. f_equal. f_equal. lia.
Qed.

Lemma snapshot_volume_refs items : forall (A B : heap) c n,
  mapM (snapshot (S (S n)) (A ++ mount_objs (length A) c items ++ B))
       (stride_refs (length A + 2) 3 (length items))
  = Some (imap (fun i => volume_entry (c + i)) items).
Proof.
  induction items as [|[k v] rest IH]; intros A B c n; [done|].
  cbn [mount_objs length stride_refs imap app].
  apply mapM_cons_Some.
  - cbn [snapshot].
    rewrite (lookup_app_r A) by lia. replace (length A + 2 - length A) with 2 by lia.
    cbn [lookup list_lookup].
    cbn [mapM fmap option_fmap option_map mbind option_bind mret option_ret fst snd snapshot].
    rewrite (lookup_app_r A) by lia. replace (length A + 1 - length A) with 1 by lia.
    cbn. rewrite !snapshot_str. cbn. by rewrite Nat.add_0_r.
  - specialize (IH (A ++ [ODict [("name", VStr ("v" +:+ str c)); ("mountPath", VStr v)];
                          ODict [("path", VStr k)];
                          ODict [("name", VStr ("v" +:+ str c)); ("hostPath", VRef (length A + 1))]])
                   B (S c) n).
    rewrite length_app in IH. cbn [length] in IH.
    rewrite <- !app_assoc in IH. cbn [app] in IH.
    replace (length A + 2 + 3) with (length A + 3 + 2) by lia. rewrite IH.
    f_equal. apply imap_ext. intros i x _. cbn. do 5 f_equal. lia.
Qed.

Lemma snapshot_env_refs items : forall (A B : heap) n,
  mapM (snapshot (S n) (A ++ env_objs items ++ B)) (stride_refs (length A) 1 (length items))
  = Some (env_entry <$> items).
Proof.
  induction items as [|[k v] rest IH]; intros A B n; [done|].
  change (env_objs ((k, v) :: rest))
    with (ODict [("name", VStr k); ("value", VStr v)] :: env_objs rest).
  cbn [fmap list_fmap length stride_refs app].
  apply mapM_cons_Some.
  - cbn [snapshot]. rewrite list_lookup_middle by done. cbn.
    by rewrite !snapshot_str.
  - specialize (IH (A ++ [ODict [("name", VStr k); ("value", VStr v)]]) B n).
    rewrite length_app in IH. cbn [length] in IH.
    rewrite <- !app_assoc in IH. cbn [app] in IH. by rewrite IH.
Qed.

Ltac lookup_fact h i L :=
  let e := eval unfold h, deployment_heap, deployment_head in (h !! i) in
  let t := eval cbn -[mount_objs stride_refs env_objs Nat.add Nat.mul Z.ltb] in e in
  assert (L : h !! i = t) by reflexivity.

(** One step of reading a tree off a store whose lookups are among the
    hypotheses. *)
Ltac snapshot_step :=
  match goal with
  | L : ?h !! ?l = Some (ODict ?items) |- context [snapshot (S ?n) ?h (VRef ?l)] =>
      rewrite (snapshot_dict n h l items L)
  | L : ?h !! ?l = Some (OList ?elems) |- context [snapshot (S ?n) ?h (VRef ?l)] =>
      rewrite (snapshot_list n h l elems L)
  | M : forall n, mapM (snapshot _ ?h) ?refs = _ |- context [mapM (snapshot _ ?h) ?refs] =>
      rewrite M
  | |- context [snapshot _ _ (VStr _)] => rewrite snapshot_str
  | |- context [snapshot _ _ (VInt _)] => rewrite snapshot_int
  end;
  cbn [mapM fmap option_fmap option_map mbind option_bind mret option_ret fst snd app].

Section DeploymentSnapshot.
Context (service_name docker_image : string) (replicas : Z)
  (environment_vars mounts : list (string * string)) (gpus : Z).

Let N := length mounts.
Let E := length environment_vars.
Let h := deployment_heap service_name docker_image replicas environment_vars mounts gpus.

Lemma deployment_lookup_tail j :
  h !! (12 + 3 * N + j) = deployment_tail environment_vars N gpus !! j.
Proof.
  unfold h, deployment_heap.
  rewrite (lookup_app_offset _ _ _ (3 * N + j)) by (unfold deployment_head; cbn [length]; lia).
  by rewrite (lookup_app_offset _ _ _ j) by (rewrite length_mount_objs; unfold N; lia).
Qed.

Lemma deployment_lookup_gpu j :
  h !! (15 + 3 * N + E + j)
  = (if (0 <? gpus)%Z
     then [ ODict [("nvidia.com/gpu", VInt gpus)];
            ODict [("limits", VRef (15 + 3 * N + E))] ]
     else []) !! j.
Proof.
  replace (15 + 3 * N + E + j) with (12 + 3 * N + (3 + (E + j))) by lia.
  rewrite deployment_lookup_tail. unfold deployment_tail.
  rewrite (lookup_app_offset [_; _; _] _ _ (E + j)) by (cbn [length]; lia).
  by rewrite (lookup_app_offset _ _ _ j) by (rewrite length_env_objs; unfold E; lia).
Qed.

Lemma deployment_mounts_snapshot n :
  mapM (snapshot (S n) h) (stride_refs 12 3 N) = Some (imap mount_entry mounts).
Proof. apply (snapshot_mount_refs mounts (deployment_head _ _ _ _ _ _) _ 0 n). Qed.

Lemma deployment_volumes_snapshot n :
  mapM (snapshot (S (S n)) h) (stride_refs 14 3 N) = Some (imap volume_entry mounts).
Proof. apply (snapshot_volume_refs mounts (deployment_head _ _ _ _ _ _) _ 0 n). Qed.

Lemma deployment_env_snapshot n :
  mapM (snapshot (S n) h) (stride_refs (15 + 3 * N) 1 E) = Some (env_entry <$> environment_vars).
Proof.
  pose proof (snapshot_env_refs environment_vars
                (deployment_head service_name docker_image replicas N E gpus
                 ++ mount_objs 12 0 mounts
                 ++ [ OList [VRef 9];
                      ODict [("containers", VRef (12 + 3 * N)); ("volumes", VRef 11)];
                      OList (stride_refs (15 + 3 * N) 1 E) ])
                (if (0 <? gpus)%Z
                 then [ ODict [("nvidia.com/gpu", VInt gpus)];
                        ODict [("limits", VRef (15 + 3 * N + E))] ]
                 else []) n) as X.
  rewrite !length_app, length_mount_objs in X. unfold deployment_head in X at 2. cbn [length] in X.
  replace (12 + (3 * length mounts + 3)) with (15 + 3 * N) in X by (unfold N; lia).
  rewrite <- X. f_equal. f_equal. unfold h, deployment_heap, deployment_tail.
  by rewrite <- !app_assoc.
Qed.

Lemma deployment_snapshot :
  snapshot DEPTH h (VRef 0)
  = Some (deployment_tree service_name docker_image replicas environment_vars mounts gpus).
Proof.
  pose proof deployment_lookup_tail as T.
  pose proof deployment_lookup_gpu as G.
  pose proof deployment_mounts_snapshot as Mm.
  pose proof deployment_volumes_snapshot as Mv.
  pose proof deployment_env_snapshot as Me.
  lookup_fact h 0 L0. lookup_fact h 1 L1. lookup_fact h 2 L2. lookup_fact h 3 L3.
  lookup_fact h 4 L4. lookup_fact h 5 L5. lookup_fact h 6 L6. lookup_fact h 7 L7.
  lookup_fact h 8 L8. lookup_fact h 9 L9. lookup_fact h 10 L10. lookup_fact h 11 L11.
  pose proof (T 0) as T0. pose proof (T 1) as T1. pose proof (T 2) as T2.
  pose proof (G 0) as G0. pose proof (G 1) as G1.
  rewrite Nat.add_0_r in T0, G0.
  replace (12 + 3 * N + 1) with (13 + 3 * N) in T1 by lia.
  replace (12 + 3 * N + 2) with (14 + 3 * N) in T2 by lia.
  replace (15 + 3 * N + E + 1) with (16 + 3 * N + E) in G1 by lia.
  cbn [deployment_tail lookup list_lookup app] in T0, T1, T2.
  fold N E in L6, L9, L10, L11, T2.
  clear T G. clearbody h N E.
  unfold DEPTH, deployment_tree, container_tree.
  revert L9 G0 G1. destruct (0 <? gpus)%Z; cbn [lookup list_lookup]; intros L9 G0 G1;
    repeat snapshot_step; reflexivity.
Qed.

End DeploymentSnapshot.

(** ** The retry loop *)

Section Retry.
Context (K : control_plane) (c : api_call).

Lemma retried_loop_Return ws no rest w v :
  K w c = Return v ->
  retried_loop (call K c) ws (no :: rest) w = (Return (Some v), w ++ [Invoked c]).
Proof. intros HK. cbn. unfold bind, try, call. by rewrite HK. Qed.

Lemma retried_loop_Raise_last ws rest w e :
  K w c = Raise e ->
  retried_loop (call K c) ws (RETRY_TIMES :: rest) w = (Raise e, w ++ last_attempt c e).
Proof.
  intros HK. cbn. unfold bind, try, call. rewrite HK. cbn.
  by rewrite <- !app_assoc.
Qed.

Lemma retried_loop_Raise_next ws no rest w e :
  K w c = Raise e -> no <> RETRY_TIMES ->
  retried_loop (call K c) ws (no :: rest) w
  = retried_loop (call K c) ws rest (w ++ failed_attempt c e ws).
Proof.
  intros HK Hno. cbn [retried_loop]. unfold bind at 1, try, call. rewrite HK.
  apply Nat.eqb_neq in Hno. rewrite Hno.
  cbn. by rewrite <- !app_assoc.
Qed.

Lemma exchanges_app w a b :
  exchanges K w (a ++ b) = exchanges K w a ++ exchanges K (w ++ a) b.
Proof.
  revert w. induction a as [|ev a IH]; intros w; cbn [app exchanges].
  - by rewrite app_nil_r.
  - destruct ev; rewrite IH, <- app_assoc; reflexivity.
Qed.


Context (ws : nat).

Lemma retried_loop_seq len : forall a w,
  a + len = RETRY_TIMES + 1 -> 0 < len ->
  exists r evs,
    retried_loop (call K c) ws (seq a len) w = (r, w ++ evs) /\ retry_run K c ws w len r evs.
Proof.
  induction len as [|len IH]; intros a w Ha Hlen; [lia|].
  cbn [seq]. destruct (K w c) as [v|e] eqn:HK.
  - exists (Return (Some v)), [Invoked c]. split; [by apply retried_loop_Return|].
    by constructor.
  - destruct len as [|len].
    + assert (a = RETRY_TIMES) as -> by lia.
      exists (Raise e), (last_attempt c e). split; [by apply retried_loop_Raise_last|].
      by constructor.
    + rewrite (retried_loop_Raise_next _ _ _ _ e) by (done || lia).
      destruct (IH (S a) (w ++ failed_attempt c e ws)) as (r & evs & Hrun & Hrel); [lia..|].
      exists r, (failed_attempt c e ws ++ evs). split.
      * by rewrite Hrun, <- app_assoc.
      * by econstructor.
Qed.

Lemma retry_run_invocations w n r evs :
  retry_run K c ws w n r evs ->
  exists k, invocations evs = repeat c k /\ 1 <= k <= n /\ (is_raise r = true -> k = n).
Proof.
  induction 1 as [w n v HK|w e HK|w n e r evs HK Hrun (k & Hk & Hle & Hlast)].
  - exists 1. cbn. split; [done|]. split; [lia|done].
  - exists 1. by cbn.
  - exists (S k). cbn. rewrite Hk. split; [done|]. split; [lia|]. intros Hr. f_equal. auto.
Qed.

Lemma retry_run_exchanges w n r evs :
  retry_run K c ws w n r evs ->
  exists failures,
    exchanges K w evs = attempts c failures (negb (is_raise r))
    /\ (if is_raise r then failures = n else failures < n).
Proof.
  induction 1 as [w n v HK|w e HK|w n e r evs HK Hrun (f & Hf & Hn)].
  - exists 0. cbn. rewrite HK. cbn. split; [done|lia].
  - exists 1. cbn. rewrite HK. by cbn.
  - exists (S f). split.
    + rewrite exchanges_app, Hf. cbn. rewrite HK. reflexivity.
    + destruct (is_raise r); lia.
Qed.

Lemma retry_run_result w n r evs :
  retry_run K c ws w n r evs ->
  exists pre,
    match r with
    | Return (Some v) => evs = pre ++ [Invoked c] /\ K (w ++ pre) c = Return v
    | Return None => False
    | Raise e => evs = pre ++ last_attempt c e /\ K (w ++ pre) c = Raise e
    end.
Proof.
  induction 1 as [w n v HK|w e HK|w n e r evs HK Hrun (pre & Hpre)].
  - exists []. by rewrite app_nil_r.
  - exists []. by rewrite app_nil_r.
  - exists (failed_attempt c e ws ++ pre).
    destruct r as [[v|]|e']; [| done |]; destruct Hpre as [-> Hlast];
      by rewrite <- !app_assoc in *.
Qed.

End Retry.

Lemma retry_call_run K c w :
  exists r evs,
    _retry (call K c) w = (r, w ++ evs) /\ retry_run K c RETRY_WAIT_SECS w (RETRY_TIMES + 1) r evs.
Proof. unfold _retry. apply retried_loop_seq; [done|]. unfold RETRY_TIMES. lia. Qed.

(** The loop never runs out: the last attempt returns or raises, so the
    implicit [None] of a function that falls off its end is never the
    result. *)
Lemma retry_never_falls_through K c w : fst (_retry (call K c) w) <> Return None.
Proof.
  destruct (retry_call_run K c w) as (r & evs & -> & Hrel).
  destruct (retry_run_result _ _ _ _ _ _ _ Hrel) as (pre & Hpre).
  cbn. by intros ->.
Qed.

(** ** The manifests *)

Section Manifests.
Context (service_name docker_image : string) (replicas : Z) (args : list string)
  (environment_vars mounts : list (string * string)) (publish_port : option (Z * Z)) (gpus : Z).

Lemma build_deployment :
  build (_create_deployment_config service_name docker_image replicas args
           environment_vars mounts publish_port gpus)
  = Return (Graph (deployment_heap service_name docker_image replicas environment_vars mounts gpus)
                  (VRef 0)).
Proof. unfold build. by rewrite deployment_run. Qed.

Lemma build_service :
  build (_create_service_config service_name docker_image replicas args
           environment_vars mounts publish_port gpus)
  = Return (Graph (service_heap service_name publish_port) (VRef 0)).
Proof. destruct publish_port as [[p0 p1]|]; reflexivity. Qed.

Lemma service_snapshot :
  snapshot DEPTH (service_heap service_name publish_port) (VRef 0)
  = Some (service_tree service_name publish_port).
Proof. destruct publish_port as [[p0 p1]|]; reflexivity. Qed.

End Manifests.


(** ** The retry executor *)

Lemma invocations_app a b : invocations (a ++ b) = invocations a ++ invocations b.
Proof.
  induction a as [|ev a IH]; [done|]. destruct ev; cbn; by rewrite ?IH.
Qed.

Lemma retry_run_all_fail K c ws w n r evs :
  retry_run K c ws w n r evs ->
  (forall h, is_raise (K h c) = true) ->
  is_raise r = true.
Proof.
  induction 1 as [w n v HK|w e HK|w n e r evs HK Hrun IH]; intros Hdown; [|done|by apply IH].
  specialize (Hdown w). by rewrite HK in Hdown.
Qed.

Lemma retry_run_nth_succeeds K c ws w0 n v :
  1 <= n ->
  (forall evs, length (invocations evs) < n - 1 -> is_raise (K (w0 ++ evs) c) = true) ->
  (forall evs, length (invocations evs) = n - 1 -> K (w0 ++ evs) c = Return v) ->
  forall w budget r evs,
    retry_run K c ws w budget r evs ->
    forall evs0, w = w0 ++ evs0 ->
      length (invocations evs0) <= n - 1 ->
      n - 1 - length (invocations evs0) < budget ->
      r = Return (Some v) /\ invocations evs = repeat c (n - length (invocations evs0)).
Proof.
  intros Hn Hfail Hok w budget r evs Hrun.
  induction Hrun as [w b v' HK|w e HK|w b e r evs HK Hrun IH]; intros evs0 -> Hk Hb.
  - destruct (decide (length (invocations evs0) = n - 1)) as [Heq|Hne].
    + rewrite (Hok _ Heq) in HK. injection HK as <-. split; [done|].
      replace (n - length (invocations evs0)) with 1 by lia. done.
    + specialize (Hfail evs0 ltac:(lia)). by rewrite HK in Hfail.
  - rewrite (Hok evs0) in HK by lia. done.
  - assert (length (invocations evs0) < n - 1) as Hlt.
    { destruct (decide (length (invocations evs0) = n - 1)) as [Heq|Hne]; [|lia].
      by rewrite (Hok _ Heq) in HK. }
    destruct (IH (evs0 ++ failed_attempt c e ws)) as [-> Hinv].
    + by rewrite app_assoc.
    + rewrite invocations_app, length_app. cbn. lia.
    + rewrite invocations_app, length_app. cbn. lia.
    + split; [done|]. rewrite invocations_app, length_app in Hinv. cbn in Hinv.
      cbn. rewrite Hinv.
      replace (n - length (invocations evs0)) with (S (n - (length (invocations evs0) + 1))) by lia.
      done.
Qed.

(** C1.  Retry bound.  An operation wrapped by [_retry] that fails on every
    invocation is invoked exactly [RETRY_TIMES + 1 = 6] times, and the call
    then raises the error of the last invocation, as it was raised.  An
    operation whose [n]-th invocation ([n <= RETRY_TIMES + 1]) is the first
    to succeed is invoked exactly [n] times: the successful invocation is the
    last event of the call, and its value is what the call returns.  The
    operation is any method of the client, with any arguments; what it
    answers may depend on all that happened before. *)
Theorem retry_bound (K : control_plane) (c : api_call) (w : trace) :
  ((forall h, is_raise (K h c) = true) ->
     exists e pre,
       _retry (call K c) w = (Raise e, w ++ pre ++ last_attempt c e)
       /\ K (w ++ pre) c = Raise e
       /\ invocations (pre ++ last_attempt c e) = repeat c (RETRY_TIMES + 1))
  /\ (forall n v, 1 <= n <= RETRY_TIMES + 1 ->
       (forall evs, length (invocations evs) < n - 1 -> is_raise (K (w ++ evs) c) = true) ->
       (forall evs, length (invocations evs) = n - 1 -> K (w ++ evs) c = Return v) ->
       exists pre,
         _retry (call K c) w = (Return (Some v), w ++ pre ++ [Invoked c])
         /\ invocations (pre ++ [Invoked c]) = repeat c n).
Proof.
  destruct (retry_call_run K c w) as (r & evs & Hrun & Hrel).
  split.
  - intros Hdown.
    pose proof (retry_run_all_fail _ _ _ _ _ _ _ Hrel Hdown) as Hr.
    destruct (retry_run_invocations _ _ _ _ _ _ _ Hrel) as (k & Hk & _ & Hlast).
    destruct (retry_run_result _ _ _ _ _ _ _ Hrel) as (pre & Hpre).
    destruct r as [?|e]; [done|]. destruct Hpre as [-> HK].
    exists e, pre. rewrite Hrun, Hk, (Hlast Hr). done.
  - intros n v Hn Hfail Hok.
    destruct (retry_run_nth_succeeds K c _ w n v (proj1 Hn) Hfail Hok _ _ _ _ Hrel [])
      as [-> Hinv]; [by rewrite app_nil_r|cbn; lia|unfold RETRY_TIMES in *; cbn; lia|].
    destruct (retry_run_result _ _ _ _ _ _ _ Hrel) as (pre & -> & HK).
    exists pre. rewrite Hrun. split; [done|]. rewrite Hinv. cbn. f_equal. lia.
Qed.

Lemma retry_bound_witness :
  (exists e pre,
     _retry (call always_down (delete_namespaced_service "svc1" "default")) []
       = (Raise e, [] ++ pre ++ last_attempt (delete_namespaced_service "svc1" "default") e)
     /\ always_down ([] ++ pre) (delete_namespaced_service "svc1" "default") = Raise e
     /\ invocations (pre ++ last_attempt (delete_namespaced_service "svc1" "default") e)
        = repeat (delete_namespaced_service "svc1" "default") (RETRY_TIMES + 1))
  /\ (exists pre,
        _retry (call (down_for 2) (delete_namespaced_service "svc1" "default")) []
          = (Return (Some (JStr "ok")), [] ++ pre ++ [Invoked (delete_namespaced_service "svc1" "default")])
        /\ invocations (pre ++ [Invoked (delete_namespaced_service "svc1" "default")])
           = repeat (delete_namespaced_service "svc1" "default") 3).
Proof.
  split.
  - apply (proj1 (retry_bound always_down (delete_namespaced_service "svc1" "default") [])).
    intros h. reflexivity.
  - apply (proj2 (retry_bound (down_for 2) (delete_namespaced_service "svc1" "default") []) 3).
    + unfold RETRY_TIMES. lia.
    + intros evs Hlt. unfold down_for. cbn [app]. 
      destruct (Nat.ltb_spec (length (invocations evs)) 2); [reflexivity|lia].
    + intros evs Heq. unfold down_for. cbn [app]. 
      destruct (Nat.ltb_spec (length (invocations evs)) 2); [lia|reflexivity].
Defined.

(** ** The workload manifest *)

Lemma volume_name_inj i j : "v" +:+ str i = "v" +:+ str j -> i = j.
Proof.
  unfold str. intros Heq. injection Heq as Heq. exact (pretty_nat_inj _ _ Heq).
Qed.

Lemma volume_names_distinct (mounts : list (string * string)) i j vi vj :
  imap volume_entry mounts !! i = Some vi ->
  imap volume_entry mounts !! j = Some vj ->
  jget "name" vi = jget "name" vj -> i = j.
Proof.
  rewrite !list_lookup_imap.
  destruct (mounts !! i) as [kvi|]; [|done]. destruct (mounts !! j) as [kvj|]; [|done].
  cbn. intros [= <-] [= <-]. cbn. intros Heq. apply volume_name_inj. congruence.
Qed.

(** C2.  For a [mounts] mapping of [N] entries the workload manifest has
    exactly [N] volumes and the container exactly [N] volume mounts; the
    [i]-th of each is named [v<i>], in the order in which the mapping is
    iterated; the [i]-th volume carries the [i]-th host path and the [i]-th
    volume mount the [i]-th container path; no two volumes have the same
    name.  (For the empty mapping both lists are empty: see the instance
    below.) *)
Theorem mounts_become_volumes (service_name docker_image : string) (replicas : Z)
    (args : list string) (environment_vars mounts : list (string * string))
    (publish_port : option (Z * Z)) (gpus : Z) :
  exists g t c vols vms,
    build (_create_deployment_config service_name docker_image replicas args
             environment_vars mounts publish_port gpus) = Return g
    /\ tree_of g = Some t
    /\ jpath ["spec"; "template"; "spec"; "volumes"] t = Some (JList vols)
    /\ jpath ["spec"; "template"; "spec"; "containers"] t = Some (JList [c])
    /\ jget "volumeMounts" c = Some (JList vms)
    /\ length vols = length mounts
    /\ length vms = length mounts
    /\ vols = imap (fun i kv => JDict [("name", JStr ("v" +:+ str i));
                                      ("hostPath", JDict [("path", JStr kv.1)])]) mounts
    /\ vms = imap (fun i kv => JDict [("name", JStr ("v" +:+ str i));
                                     ("mountPath", JStr kv.2)]) mounts
    /\ (forall i j vi vj,
          vols !! i = Some vi -> vols !! j = Some vj ->
          jget "name" vi = jget "name" vj -> i = j).
Proof.
  eexists _, _, _, _, _.
  split; [apply build_deployment|].
  split; [apply deployment_snapshot|].
  split; [reflexivity|].
  split; [reflexivity|].
  split; [reflexivity|].
  split; [by rewrite length_imap|].
  split; [by rewrite length_imap|].
  split; [reflexivity|].
  split; [reflexivity|].
  apply volume_names_distinct.
Qed.

Lemma mounts_become_volumes_witness :
  exists g t c,
    build (_create_deployment_config "svc1" "img:1" 2 [] [] [] None 0) = Return g
    /\ tree_of g = Some t
    /\ jpath ["spec"; "template"; "spec"; "volumes"] t = Some (JList [])
    /\ jpath ["spec"; "template"; "spec"; "containers"] t = Some (JList [c])
    /\ jget "volumeMounts" c = Some (JList []).
Proof.
  destruct (mounts_become_volumes "svc1" "img:1" 2 [] [] [] None 0)
    as (g & t & c & vols & vms & Hg & Ht & Hvols & Hc & Hvms & _ & _ & -> & -> & _).
  exists g, t, c. repeat split; assumption.
Defined.

(** C4.  GPU policy.  With [gpus = 0] the container of the workload manifest
    has no [resources] entry at all (its keys are name, image, volumeMounts
    and env); with [gpus = k > 0] its [resources] entry is exactly
    [{limits: {nvidia.com/gpu: k}}].  The entry is stored in the container
    after the container was linked into the pod template, and shows there. *)
Theorem gpu_policy (service_name docker_image : string) (replicas : Z)
    (args : list string) (environment_vars mounts : list (string * string))
    (publish_port : option (Z * Z)) (gpus : Z) :
  exists g t c,
    build (_create_deployment_config service_name docker_image replicas args
             environment_vars mounts publish_port gpus) = Return g
    /\ tree_of g = Some t
    /\ jpath ["spec"; "template"; "spec"; "containers"] t = Some (JList [c])
    /\ (gpus = 0%Z ->
          jget "resources" c = None /\ jkeys c = ["name"; "image"; "volumeMounts"; "env"])
    /\ ((0 < gpus)%Z ->
          jget "resources" c
          = Some (JDict [("limits", JDict [("nvidia.com/gpu", JInt gpus)])])).
Proof.
  eexists _, _, _.
  split; [apply build_deployment|].
  split; [apply deployment_snapshot|].
  split; [reflexivity|].
  split.
  - intros ->. repeat split; reflexivity.
  - intros Hpos. apply Z.ltb_lt in Hpos. unfold container_tree. rewrite Hpos. reflexivity.
Qed.

Lemma gpu_policy_witness :
  (exists g t c,
     build (_create_deployment_config "svc1" "img:1" 2 [] [] [] None 0) = Return g
     /\ tree_of g = Some t
     /\ jpath ["spec"; "template"; "spec"; "containers"] t = Some (JList [c])
     /\ jget "resources" c = None)
  /\ (exists g t c,
        build (_create_deployment_config "svc1" "img:1" 2 [] [] [] None 2) = Return g
        /\ tree_of g = Some t
        /\ jpath ["spec"; "template"; "spec"; "containers"] t = Some (JList [c])
        /\ jget "resources" c = Some (JDict [("limits", JDict [("nvidia.com/gpu", JInt 2)])])).
Proof.
  split.
  - destruct (gpu_policy "svc1" "img:1" 2 [] [] [] None 0)
      as (g & t & c & Hg & Ht & Hc & Hzero & _).
    exists g, t, c. repeat split; try assumption. apply Hzero. reflexivity.
  - destruct (gpu_policy "svc1" "img:1" 2 [] [] [] None 2)
      as (g & t & c & Hg & Ht & Hc & _ & Hpos).
    exists g, t, c. repeat split; try assumption. apply Hpos. lia.
Defined.

(** C8, as the specification states it, fails: the launch arguments are
    handed to [_create_deployment_config] but no entry of the manifest is
    made from them.  For the arguments [--port 8000] the single container
    is [{name, image, volumeMounts, env}], it has neither [args] nor
    [command], and neither string occurs anywhere in the manifest. *)
Lemma launch_args_dropped :
  exists g t c,
    build (_create_deployment_config "svc1" "img:1" 2 ["--port"; "8000"] [] [] None 0) = Return g
    /\ tree_of g = Some t
    /\ jpath ["spec"; "template"; "spec"; "containers"] t = Some (JList [c])
    /\ c = JDict [("name", JStr "svc1"); ("image", JStr "img:1");
                  ("volumeMounts", JList []); ("env", JList [])]
    /\ jget "args" c = None
    /\ jget "command" c = None
    /\ mentions "--port" t = false
    /\ mentions "8000" t = false.
Proof.
  eexists _, _, _. 
  split; [apply build_deployment|].
  split; [apply deployment_snapshot|].
  repeat split; reflexivity.
Qed.

(** C8, amended.  The workload manifest does not depend on the launch
    arguments: the single container of the pod template carries the name,
    the image, the volume mounts and the environment (and the resources when
    [gpus > 0]) and nothing else. *)
Theorem launch_args_unused (service_name docker_image : string) (replicas : Z)
    (args args' : list string) (environment_vars mounts : list (string * string))
    (publish_port : option (Z * Z)) (gpus : Z) :
  build (_create_deployment_config service_name docker_image replicas args
           environment_vars mounts publish_port gpus)
  = build (_create_deployment_config service_name docker_image replicas args'
             environment_vars mounts publish_port gpus)
  /\ exists g t c,
       build (_create_deployment_config service_name docker_image replicas args
                environment_vars mounts publish_port gpus) = Return g
       /\ tree_of g = Some t
       /\ jpath ["spec"; "template"; "spec"; "containers"] t = Some (JList [c])
       /\ jkeys c = ["name"; "image"; "volumeMounts"; "env"]
                    ++ (if (0 <? gpus)%Z then ["resources"] else [])
       /\ jget "image" c = Some (JStr docker_image)
       /\ jget "env" c
          = Some (JList ((fun kv => JDict [("name", JStr kv.1); ("value", JStr kv.2)])
                           <$> environment_vars)).
Proof.
  split; [by rewrite !build_deployment|].
  eexists _, _, _.
  split; [apply build_deployment|].
  split; [apply deployment_snapshot|].
  split; [reflexivity|].
  unfold container_tree. destruct (0 <? gpus)%Z; repeat split; reflexivity.
Qed.

(** ** create_service *)

Lemma bind_Raise {S A B} (m : SE S A) (k : A -> SE S B) s e s' :
  m s = (Raise e, s') -> bind m k s = (Raise e, s').
Proof. unfold bind. by intros ->. Qed.

Section CreateService.
Context (K : control_plane) (service_name docker_image : string) (replicas : Z)
  (args : list string) (environment_vars mounts : list (string * string)) (gpus : Z).

Let dep := create_namespaced_deployment "default"
  (Graph (deployment_heap service_name docker_image replicas environment_vars mounts gpus) (VRef 0)).

Let handle (publish_port : option (Z * Z)) : ContainerService :=
  {| id := service_name;
     hostname := service_name;
     exposed_port := match publish_port with Some p => Some p.1 | None => None end;
     info := [("node_id", JStr "default"); ("gpu_nos", JInt gpus);
              ("service_name", JStr service_name); ("replicas", JInt replicas)] |}.

Lemma create_workload_run publish_port (w : trace) :
  exists r evs,
    retry_run K dep RETRY_WAIT_SECS w (RETRY_TIMES + 1) r evs
    /\ (let* deployment_config :=
          lift (build (_create_deployment_config service_name docker_image replicas args
                         environment_vars mounts publish_port gpus)) in
        let* deployment_obj :=
          _retry (call K (create_namespaced_deployment "default" deployment_config)) in
        ret (handle publish_port)) w
       = (match r with Return _ => Return (handle publish_port) | Raise e => Raise e end, w ++ evs).
Proof.
  destruct (retry_call_run K dep w) as (r & evs & Hrun & Hrel).
  exists r, evs. split; [done|].
  rewrite build_deployment.
  erewrite bind_Return; [|reflexivity]. fold dep.
  destruct r as [v|e].
  - erewrite bind_Return; [reflexivity|exact Hrun].
  - erewrite bind_Raise; [reflexivity|exact Hrun].
Qed.

Lemma create_service_headless (w : trace) :
  exists r evs,
    retry_run K dep RETRY_WAIT_SECS w (RETRY_TIMES + 1) r evs
    /\ create_service K service_name docker_image replicas args environment_vars mounts None gpus w
       = (match r with Return _ => Return (handle None) | Raise e => Raise e end, w ++ evs).
Proof.
  destruct (create_workload_run None w) as (r & evs & Hrel & Hrun).
  exists r, evs. split; [done|].
  unfold create_service. erewrite bind_Return; [|reflexivity]. exact Hrun.
Qed.

Lemma create_service_exposed p (w : trace) :
  let svc := create_namespaced_service "default" (Graph (service_heap service_name (Some p)) (VRef 0)) in
  exists r1 evs1,
    retry_run K svc RETRY_WAIT_SECS w (RETRY_TIMES + 1) r1 evs1
    /\ match r1 with
       | Raise e =>
           create_service K service_name docker_image replicas args environment_vars mounts
             (Some p) gpus w = (Raise e, w ++ evs1)
       | Return _ =>
           exists r2 evs2,
             retry_run K dep RETRY_WAIT_SECS (w ++ evs1) (RETRY_TIMES + 1) r2 evs2
             /\ create_service K service_name docker_image replicas args environment_vars mounts
                  (Some p) gpus w
                = (match r2 with Return _ => Return (handle (Some p)) | Raise e => Raise e end,
                   w ++ evs1 ++ evs2)
       end.
Proof.
  intros svc.
  destruct (retry_call_run K svc w) as (r1 & evs1 & Hrun1 & Hrel1).
  exists r1, evs1. split; [done|].
  unfold create_service. rewrite build_service.
  destruct r1 as [v1|e1].
  - destruct (create_workload_run (Some p) (w ++ evs1)) as (r2 & evs2 & Hrel2 & Hrun2).
    exists r2, evs2. split; [done|].
    erewrite bind_Return.
    2: { erewrite bind_Return; [|reflexivity]. erewrite bind_Return; [|exact Hrun1]. reflexivity. }
    etransitivity; [exact Hrun2|]. by rewrite <- app_assoc.
  - erewrite bind_Raise; [reflexivity|].
    erewrite bind_Return; [|reflexivity]. erewrite bind_Raise; [reflexivity|exact Hrun1].
Qed.

End CreateService.

Lemma exchanges_invocations K evs : forall w, map fst (exchanges K w evs) = invocations evs.
Proof.
  induction evs as [|ev evs IH]; intros w; [done|].
  destruct ev; cbn; by rewrite IH.
Qed.

Lemma attempts_calls c failures ok :
  map fst (attempts c failures ok) = repeat c (failures + if ok then 1 else 0).
Proof.
  unfold attempts. rewrite map_app, repeat_app. f_equal.
  - induction failures as [|n IH]; cbn; by rewrite ?IH.
  - by destruct ok.
Qed.

Lemma count_verb_app v a b : count_verb v (a ++ b) = count_verb v a + count_verb v b.
Proof. induction a as [|c a IH]; cbn; [done|]. rewrite IH. lia. Qed.

Lemma times_app v a b : times v (a ++ b) = times v a + times v b.
Proof. unfold times. by rewrite invocations_app, count_verb_app. Qed.

Lemma times_exchanges K w v evs c n :
  map fst (exchanges K w evs) = repeat c n ->
  times v evs = if verb_eqb (verb_of c) v then n else 0.
Proof.
  rewrite exchanges_invocations. unfold times. intros ->.
  induction n as [|n IH]; cbn; [by destruct (verb_eqb _ _)|].
  rewrite IH. by destruct (verb_eqb _ _).
Qed.

(** C3.  [create_service] invokes the creation of a network-service if and
    only if [publish_port] is present.  Without it, the calls it makes are
    those of one retried creation of the workload and nothing else.  With
    it, they are those of one retried creation of the network-service,
    followed, once an attempt of it succeeded, by those of one retried
    creation of the workload; when all [RETRY_TIMES + 1] attempts on the
    network-service fail, the error is raised and the workload is not
    attempted.  A retried creation shows as up to [RETRY_TIMES] failed
    attempts and a success, or as [RETRY_TIMES + 1] failed attempts. *)
Theorem exposure_iff_publish_port (K : control_plane) (service_name docker_image : string)
    (replicas : Z) (args : list string) (environment_vars mounts : list (string * string))
    (publish_port : option (Z * Z)) (gpus : Z) (w : trace) :
  exists gs gd evs,
    build (_create_service_config service_name docker_image replicas args
             environment_vars mounts publish_port gpus) = Return gs
    /\ build (_create_deployment_config service_name docker_image replicas args
                environment_vars mounts publish_port gpus) = Return gd
    /\ snd (create_service K service_name docker_image replicas args
              environment_vars mounts publish_port gpus w) = w ++ evs
    /\ (1 <= times CreateService evs <-> publish_port <> None)
    /\ let svc := create_namespaced_service "default" gs in
       let dep := create_namespaced_deployment "default" gd in
       let raised :=
         is_raise (fst (create_service K service_name docker_image replicas args
                          environment_vars mounts publish_port gpus w)) in
       match publish_port with
       | None =>
           exists b okd,
             exchanges K w evs = attempts dep b okd
             /\ within_budget b okd /\ raised = negb okd
       | Some _ =>
           exists a oks,
             within_budget a oks
             /\ if oks
                then exists b okd,
                       exchanges K w evs = attempts svc a true ++ attempts dep b okd
                       /\ within_budget b okd /\ raised = negb okd
                else exchanges K w evs = attempts svc a false /\ raised = true
       end.
Proof.
  eexists _, _. 
  destruct publish_port as [p|].
  - destruct (create_service_exposed K service_name docker_image replicas args
                environment_vars mounts gpus p w) as (r1 & evs1 & Hrel1 & Hrun).
    destruct (retry_run_exchanges _ _ _ _ _ _ _ Hrel1) as (a & Ha & Hbudget1).
    destruct r1 as [v1|e1].
    + destruct Hrun as (r2 & evs2 & Hrel2 & Hrun).
      destruct (retry_run_exchanges _ _ _ _ _ _ _ Hrel2) as (b & Hb & Hbudget2).
      exists (evs1 ++ evs2).
      split; [apply build_service|]. split; [apply build_deployment|].
      split; [by rewrite Hrun|]. 
      split.
      { split; [done|]. intros _. rewrite times_app.
        erewrite (times_exchanges K w _ evs1); [|rewrite Ha; apply attempts_calls].
        cbn. lia. }
      cbn zeta. exists a, true. split; [unfold within_budget, RETRY_TIMES in *; cbn in *; lia|].
      exists b, (negb (is_raise r2)). rewrite exchanges_app, Ha, Hb, Hrun. 
      split; [done|]. split.
      * unfold within_budget, RETRY_TIMES in *. destruct (is_raise r2); cbn; lia.
      * destruct r2; by cbn.
    + exists evs1.
      split; [apply build_service|]. split; [apply build_deployment|].
      split; [by rewrite Hrun|].
      split.
      { split; [done|]. intros _.
        erewrite (times_exchanges K w _ evs1); [|rewrite Ha; apply attempts_calls].
        cbn in *. lia. }
      cbn zeta. exists a, false. rewrite Hrun. cbn in *. done.
  - destruct (create_service_headless K service_name docker_image replicas args
                environment_vars mounts gpus w) as (r & evs & Hrel & Hrun).
    destruct (retry_run_exchanges _ _ _ _ _ _ _ Hrel) as (b & Hb & Hbudget).
    exists evs.
    split; [apply build_service|]. split; [apply build_deployment|].
    split; [by rewrite Hrun|].
    split.
    { erewrite (times_exchanges K w _ evs); [|rewrite Hb; apply attempts_calls].
      cbn. split; [lia|done]. }
    cbn zeta. exists b, (negb (is_raise r)). rewrite Hrun.
    split; [done|]. split.
    + unfold within_budget, RETRY_TIMES in *. destruct (is_raise r); cbn; lia.
    + destruct r; by cbn.
Qed.

Lemma create_service_returns (K : control_plane) service_name docker_image replicas args
    environment_vars mounts publish_port gpus (w : trace) svc :
  fst (create_service K service_name docker_image replicas args environment_vars mounts
         publish_port gpus w) = Return svc ->
  svc = {| id := service_name;
           hostname := service_name;
           exposed_port := match publish_port with Some p => Some p.1 | None => None end;
           info := [("node_id", JStr "default"); ("gpu_nos", JInt gpus);
                    ("service_name", JStr service_name); ("replicas", JInt replicas)] |}.
Proof.
  destruct publish_port as [p|].
  - destruct (create_service_exposed K service_name docker_image replicas args
                environment_vars mounts gpus p w) as (r1 & evs1 & _ & Hrun).
    destruct r1 as [v1|e1]; [|by rewrite Hrun].
    destruct Hrun as (r2 & evs2 & _ & ->). destruct r2; [|done]. by intros [= <-].
  - destruct (create_service_headless K service_name docker_image replicas args
                environment_vars mounts gpus w) as (r & evs & _ & ->).
    destruct r; [|done]. by intros [= <-].
Qed.

(** C7.  With [publish_port = (30080, 8080)] the network-service manifest
    has type [NodePort] and exactly one port rule,
    [{port: 8080, targetPort: 8080, nodePort: 30080}], and the
    [ContainerService] that [create_service] returns has
    [exposed_port = 30080]; without [publish_port] the returned
    [ContainerService] has no exposed port. *)
Theorem published_port_scenario (K : control_plane) (service_name docker_image : string)
    (replicas : Z) (args : list string) (environment_vars mounts : list (string * string))
    (gpus : Z) (w : trace) :
  (exists gs t,
     build (_create_service_config service_name docker_image replicas args
              environment_vars mounts (Some (30080, 8080)%Z) gpus) = Return gs
     /\ tree_of gs = Some t
     /\ jpath ["spec"; "type"] t = Some (JStr "NodePort")
     /\ jpath ["spec"; "ports"] t
        = Some (JList [JDict [("port", JInt 8080); ("targetPort", JInt 8080);
                              ("nodePort", JInt 30080)]]))
  /\ (forall svc,
        fst (create_service K service_name docker_image replicas args environment_vars mounts
               (Some (30080, 8080)%Z) gpus w) = Return svc ->
        exposed_port svc = Some 30080%Z)
  /\ (forall svc,
        fst (create_service K service_name docker_image replicas args environment_vars mounts
               None gpus w) = Return svc ->
        exposed_port svc = None).
Proof.
  split; [|split].
  - eexists _, _. split; [apply build_service|]. split; [apply service_snapshot|]. done.
  - intros svc Hsvc. by rewrite (create_service_returns _ _ _ _ _ _ _ _ _ _ _ Hsvc).
  - intros svc Hsvc. by rewrite (create_service_returns _ _ _ _ _ _ _ _ _ _ _ Hsvc).
Qed.

Lemma published_port_scenario_witness :
  (exists svc,
     fst (create_service (down_for 2) "svc1" "img:1" 2 [] [] [] (Some (30080, 8080)%Z) 0 [])
       = Return svc
     /\ exposed_port svc = Some 30080%Z)
  /\ (exists svc,
        fst (create_service (down_for 2) "svc1" "img:1" 2 [] [] [] None 0 []) = Return svc
        /\ exposed_port svc = None).
Proof.
  split.
  - eexists. split; [vm_compute; reflexivity|].
    apply (proj1 (proj2 (published_port_scenario (down_for 2) "svc1" "img:1" 2 [] [] [] 0 []))).
    vm_compute. reflexivity.
  - eexists. split; [vm_compute; reflexivity|].
    apply (proj2 (proj2 (published_port_scenario (down_for 2) "svc1" "img:1" 2 [] [] [] 0 []))
             {| id := "svc1"; hostname := "svc1"; exposed_port := None;
                info := [("node_id", JStr "default"); ("gpu_nos", JInt 0);
                         ("service_name", JStr "svc1"); ("replicas", JInt 2)] |}).
    vm_compute. reflexivity.
Defined.

(** ** update_ingress and destroy_service *)

Lemma contains_In x names : contains x names = true <-> In x names.
Proof.
  unfold contains. rewrite existsb_exists. split.
  - intros (y & Hy & Heq). apply String.eqb_eq in Heq. by subst.
  - intros Hx. exists x. split; [done|]. apply String.eqb_refl.
Qed.

Section UpdateIngress.
Context (K : control_plane) (ingress_name : string) (ingress_body : json) (w : trace).

Let lst := list_namespaced_ingress_with_http_info "default".

Lemma update_ingress_bad_body e :
  _update_ingress_paths ingress_body = Raise e ->
  update_ingress K ingress_name ingress_body w = (Raise e, w).
Proof. intros Hb. unfold update_ingress, bind, lift. by rewrite Hb. Qed.

Lemma update_ingress_list_raises paths e :
  _update_ingress_paths ingress_body = Return paths ->
  K w lst = Raise e ->
  update_ingress K ingress_name ingress_body w = (Raise e, w ++ [Invoked lst]).
Proof.
  intros Hb Hl. unfold update_ingress, bind, lift, call. rewrite Hb. fold lst. by rewrite Hl.
Qed.

Lemma update_ingress_list_status paths data status :
  _update_ingress_paths ingress_body = Return paths ->
  K w lst = Return (data, status) ->
  status <> 200%Z ->
  update_ingress K ingress_name ingress_body w
  = (Raise (ServiceRequestError "ingress response code is not 200"), w ++ [Invoked lst]).
Proof.
  intros Hb Hl Hs. unfold update_ingress, bind, lift, call. rewrite Hb. fold lst. rewrite Hl.
  cbn [fst snd]. apply Z.eqb_neq in Hs. by rewrite Hs.
Qed.

Lemma update_ingress_replace paths data :
  _update_ingress_paths ingress_body = Return paths ->
  K w lst = Return (data, 200%Z) ->
  In ingress_name (map (fun ele => client.name (client.metadata ele)) (client.items data)) ->
  let c := replace_namespaced_ingress_with_http_info ingress_name "default"
             (ingress_manifest ingress_name paths) in
  update_ingress K ingress_name ingress_body w
  = (match K (w ++ [Invoked lst]) c with Return _ => Return tt | Raise e => Raise e end,
     w ++ [Invoked lst; Invoked c]).
Proof.
  intros Hb Hl Hin c. apply contains_In in Hin.
  unfold update_ingress. unfold bind at 1, lift. rewrite Hb.
  unfold bind at 1, call at 1. fold lst. rewrite Hl. cbn [fst snd negb Z.eqb Pos.eqb].
  rewrite Hin. unfold bind, call, ret. fold c.
  rewrite <- app_assoc. by destruct (K _ c).
Qed.

Lemma update_ingress_create paths data :
  _update_ingress_paths ingress_body = Return paths ->
  K w lst = Return (data, 200%Z) ->
  ~ In ingress_name (map (fun ele => client.name (client.metadata ele)) (client.items data)) ->
  let c := create_namespaced_ingress_with_http_info "default"
             (ingress_manifest ingress_name paths) in
  update_ingress K ingress_name ingress_body w
  = (match K (w ++ [Invoked lst]) c with Return _ => Return tt | Raise e => Raise e end,
     w ++ [Invoked lst; Invoked c]).
Proof.
  intros Hb Hl Hin c.
  assert (contains ingress_name
            (map (fun ele => client.name (client.metadata ele)) (client.items data)) = false) as Hc.
  { destruct (contains _ _) eqn:E; [|done]. by apply contains_In in E. }
  unfold update_ingress. unfold bind at 1, lift. rewrite Hb.
  unfold bind at 1, call at 1. fold lst. rewrite Hl. cbn [fst snd negb Z.eqb Pos.eqb].
  rewrite Hc. unfold bind, call, ret. fold c.
  rewrite <- app_assoc. by destruct (K _ c).
Qed.

End UpdateIngress.

(** C5.  When [update_ingress] gets to list the live rule sets and the
    listing answers with status 200: if [ingress_name] is among the live
    names, the call issues, after the listing, exactly one replace of the
    whole rule-set object and no create; otherwise exactly one create and
    no replace. *)
Theorem update_ingress_create_or_replace (K : control_plane) (ingress_name : string)
    (ingress_body : json) (w : trace) paths data :
  _update_ingress_paths ingress_body = Return paths ->
  K w (list_namespaced_ingress_with_http_info "default") = Return (data, 200%Z) ->
  let live := map (fun ele => client.name (client.metadata ele)) (client.items data) in
  let body := ingress_manifest ingress_name paths in
  exists evs,
    snd (update_ingress K ingress_name ingress_body w) = w ++ evs
    /\ (In ingress_name live ->
          invocations evs
          = [list_namespaced_ingress_with_http_info "default";
             replace_namespaced_ingress_with_http_info ingress_name "default" body]
          /\ times ReplaceRule evs = 1 /\ times CreateRule evs = 0)
    /\ (~ In ingress_name live ->
          invocations evs
          = [list_namespaced_ingress_with_http_info "default";
             create_namespaced_ingress_with_http_info "default" body]
          /\ times CreateRule evs = 1 /\ times ReplaceRule evs = 0).
Proof.
  intros Hb Hl live body.
  destruct (in_dec String.string_dec ingress_name live) as [Hin|Hout].
  - eexists. split.
    + by rewrite (update_ingress_replace K _ _ w paths data Hb Hl Hin).
    + split; [by intros _|by intros Hn].
  - eexists. split.
    + by rewrite (update_ingress_create K _ _ w paths data Hb Hl Hout).
    + split; [by intros Hn|by intros _].
Qed.

Lemma update_ingress_create_or_replace_witness :
  (exists evs,
     snd (update_ingress (listing ["ing0"; "ing1"] 200) "ing1" (body_of [rule_of [path_info "/a" "svc1" 80]]) [])
       = [] ++ evs
     /\ times ReplaceRule evs = 1 /\ times CreateRule evs = 0)
  /\ (exists evs,
        snd (update_ingress (listing ["ing0"] 200) "ing1" (body_of [rule_of [path_info "/a" "svc1" 80]]) [])
          = [] ++ evs
        /\ times CreateRule evs = 1 /\ times ReplaceRule evs = 0).
Proof.
  split.
  - destruct (update_ingress_create_or_replace (listing ["ing0"; "ing1"] 200) "ing1"
                (body_of [rule_of [path_info "/a" "svc1" 80]]) [] _ _ eq_refl eq_refl)
      as (evs & Hevs & Hin & _).
    exists evs. split; [exact Hevs|]. apply Hin. cbn. tauto.
  - destruct (update_ingress_create_or_replace (listing ["ing0"] 200) "ing1"
                (body_of [rule_of [path_info "/a" "svc1" 80]]) [] _ _ eq_refl eq_refl)
      as (evs & Hevs & _ & Hout).
    exists evs. split; [exact Hevs|]. apply Hout. cbn. intros [H|[]]. discriminate H.
Defined.

(** C6.  When the listing answers with a status other than 200,
    [update_ingress] raises [ServiceRequestError] and has issued the listing
    only: neither a create nor a replace. *)
Theorem update_ingress_listing_not_ok (K : control_plane) (ingress_name : string)
    (ingress_body : json) (w : trace) paths data status :
  _update_ingress_paths ingress_body = Return paths ->
  K w (list_namespaced_ingress_with_http_info "default") = Return (data, status) ->
  status <> 200%Z ->
  exists evs,
    update_ingress K ingress_name ingress_body w
    = (Raise (ServiceRequestError "ingress response code is not 200"), w ++ evs)
    /\ invocations evs = [list_namespaced_ingress_with_http_info "default"]
    /\ times CreateRule evs = 0
    /\ times ReplaceRule evs = 0.
Proof.
  intros Hb Hl Hs. eexists. split.
  - by apply (update_ingress_list_status K _ _ w paths data status).
  - done.
Qed.

Lemma update_ingress_listing_not_ok_witness :
  exists evs,
    update_ingress (listing ["ing1"] 500) "ing1" (body_of [rule_of [path_info "/a" "svc1" 80]]) []
    = (Raise (ServiceRequestError "ingress response code is not 200"), [] ++ evs)
    /\ invocations evs = [list_namespaced_ingress_with_http_info "default"]
    /\ times CreateRule evs = 0
    /\ times ReplaceRule evs = 0.
Proof.
  apply (update_ingress_listing_not_ok (listing ["ing1"] 500) "ing1"
           (body_of [rule_of [path_info "/a" "svc1" 80]]) [] _ _ 500%Z eq_refl eq_refl).
  lia.
Defined.

Lemma singleton_split {A} (x y : A) pre post :
  [x] = pre ++ y :: post -> pre = [] /\ y = x /\ post = [].
Proof.
  destruct pre as [|a pre]; cbn; intros Heq.
  - by injection Heq as -> <-.
  - injection Heq as _ Heq. by destruct pre.
Qed.

Lemma pair_split {A} (x1 x2 y : A) pre post :
  [x1; x2] = pre ++ y :: post ->
  (pre = [] /\ y = x1 /\ post = [x2]) \/ (pre = [x1] /\ y = x2 /\ post = []).
Proof.
  destruct pre as [|a pre]; cbn; intros Heq.
  - left. by injection Heq as -> <-.
  - right. injection Heq as <- Heq. apply singleton_split in Heq as (-> & -> & ->). done.
Qed.

Section Unretried.
Context {A : Type} (K : control_plane) (w : trace).

Lemma unretried_nil (r : outcome A) : unretried K w [] r.
Proof.
  split; [by intros ev []|]. split; [by intros c []|].
  intros pre c post e Heq. by destruct pre.
Qed.

Lemma unretried_one c (r : outcome A) :
  (forall e, K w c = Raise e -> r = Raise e) ->
  unretried K w [Invoked c] r.
Proof.
  intros Hr. split; [|split].
  - intros ev [<-|[]]. by eexists.
  - intros c' [<-|[]]. unfold times. cbn. by destruct (verb_of c).
  - intros pre c' post e Heq HK.
    apply singleton_split in Heq as (-> & Heq & ->). injection Heq as ->.
    rewrite app_nil_r in HK. split; [done|]. by apply Hr.
Qed.

Lemma unretried_two c1 c2 (r : outcome A) :
  verb_of c1 <> verb_of c2 ->
  is_raise (K w c1) = false ->
  (forall e, K (w ++ [Invoked c1]) c2 = Raise e -> r = Raise e) ->
  unretried K w [Invoked c1; Invoked c2] r.
Proof.
  intros Hv H1 Hr. split; [|split].
  - intros ev [<-|[<-|[]]]; by eexists.
  - intros c' [<-|[<-|[]]]; unfold times; cbn;
      destruct (verb_of c1), (verb_of c2); done.
  - intros pre c' post e Heq HK.
    apply pair_split in Heq as [(-> & Heq & ->)|(-> & Heq & ->)]; injection Heq as ->.
    + rewrite app_nil_r in HK. by rewrite HK in H1.
    + split; [done|]. by apply Hr.
Qed.

End Unretried.

(** C9.  [destroy_service] and [update_ingress] do not retry.  In a call of
    either, nothing but invocations of the client is observed (no wait, no
    retry record), no operation is invoked a second time, and an invocation
    that fails is the last one of the call, its error being raised to the
    caller as it is.  Each operation the call gets to is invoked exactly
    once: the deletion of the workload in every [destroy_service]; the
    deletion of the network-service whenever that of the workload returned;
    the listing whenever the rule-set body could be converted; and, whenever
    the listing then returned with status 200, the replace when the name is
    among the live ones and the create when it is not.  An operation the
    call does not get to is not invoked: no write when the conversion
    raised, the listing raised, or the listing returned another status. *)
Theorem destroy_and_update_not_retried (K : control_plane) (w : trace) :
  (forall service,
     exists r evs,
       destroy_service K service w = (r, w ++ evs)
       /\ unretried K w evs r
       /\ times DeleteWorkload evs = 1
       /\ times DeleteService evs
          = (if is_raise (K w (delete_namespaced_deployment (id service) "default"))
             then 0 else 1))
  /\ (forall ingress_name ingress_body,
        exists r evs,
          update_ingress K ingress_name ingress_body w = (r, w ++ evs)
          /\ unretried K w evs r
          /\ times ListRules evs
             = (if is_raise (_update_ingress_paths ingress_body) then 0 else 1)
          /\ times CreateRule evs + times ReplaceRule evs <= 1
          /\ (forall paths data,
                _update_ingress_paths ingress_body = Return paths ->
                K w (list_namespaced_ingress_with_http_info "default") = Return (data, 200%Z) ->
                let live :=
                  map (fun ele => client.name (client.metadata ele)) (client.items data) in
                times ReplaceRule evs = (if contains ingress_name live then 1 else 0)
                /\ times CreateRule evs = (if contains ingress_name live then 0 else 1))
          /\ (is_raise (_update_ingress_paths ingress_body) = true
              \/ is_raise (K w (list_namespaced_ingress_with_http_info "default")) = true
              \/ (exists data status,
                    K w (list_namespaced_ingress_with_http_info "default")
                    = Return (data, status)
                    /\ status <> 200%Z) ->
              times ReplaceRule evs = 0 /\ times CreateRule evs = 0)).
Proof.
  split.
  - intros service. unfold destroy_service.
    set (d1 := delete_namespaced_deployment (id service) "default").
    set (d2 := delete_namespaced_service (id service) "default").
    destruct (K w d1) as [v1|e1] eqn:H1.
    + destruct (K (w ++ [Invoked d1]) d2) as [v2|e2] eqn:H2.
      * exists (Return tt), [Invoked d1; Invoked d2]. split.
        { unfold bind, call, ret. rewrite H1, H2. by rewrite <- app_assoc. }
        split; [|done]. apply unretried_two; [done|by rewrite H1|]. intros e He. by rewrite H2 in He.
      * exists (Raise e2), [Invoked d1; Invoked d2]. split.
        { unfold bind, call, ret. rewrite H1, H2. by rewrite <- app_assoc. }
        split; [|done]. apply unretried_two; [done|by rewrite H1|]. intros e He.
        rewrite H2 in He. by injection He as ->.
    + exists (Raise e1), [Invoked d1]. split.
      { unfold bind, call. by rewrite H1. }
      split; [|done]. apply unretried_one. intros e He. rewrite H1 in He. by injection He as ->.
  - intros ingress_name ingress_body.
    set (lst := list_namespaced_ingress_with_http_info "default").
    destruct (_update_ingress_paths ingress_body) as [paths|e] eqn:Hb.
    2: { exists (Raise e), []. rewrite app_nil_r. split; [by apply update_ingress_bad_body|].
         split; [apply unretried_nil|]. split; [reflexivity|]. split; [cbn; lia|].
         split; [by intros paths data Hp|done]. }
    destruct (K w lst) as [[data status]|e] eqn:Hl.
    2: { exists (Raise e), [Invoked lst]. split; [by eapply update_ingress_list_raises|].
         split; [|split; [reflexivity|split; [cbn; lia|split; [by intros paths' data _ Hd|done]]]].
         apply unretried_one. intros e' He. fold lst in He.
         rewrite Hl in He. by injection He as ->. }
    destruct (decide (status = 200%Z)) as [->|Hs].
    2: { eexists _, [Invoked lst]. split; [by eapply update_ingress_list_status|].
         split; [|split; [reflexivity|split; [cbn; lia|split; [|done]]]].
         - apply unretried_one. intros e' He. fold lst in He. by rewrite Hl in He.
         - intros paths' data' _ [= _ Heq]. done. }
    destruct (in_dec String.string_dec ingress_name
                (map (fun ele => client.name (client.metadata ele)) (client.items data)))
      as [Hin|Hout].
    + eexists _, _. split; [by eapply update_ingress_replace|].
      split; [|split; [reflexivity|split; [cbn; lia|split]]].
      * apply unretried_two; [done|by fold lst; rewrite Hl|].
        intros e He. by rewrite He.
      * intros paths' data' _ [= <-]. cbv zeta.
        apply contains_In in Hin. by rewrite Hin.
      * intros [Hr|[Hr|(data' & status' & [= _ <-] & Hne)]]; done.
    + eexists _, _. split; [by eapply update_ingress_create|].
      split; [|split; [reflexivity|split; [cbn; lia|split]]].
      * apply unretried_two; [done|by fold lst; rewrite Hl|].
        intros e He. by rewrite He.
      * intros paths' data' _ [= <-]. cbv zeta.
        destruct (contains _ _) eqn:Hc; [|done]. by apply contains_In in Hc.
      * intros [Hr|[Hr|(data' & status' & [= _ <-] & Hne)]]; done.
Qed.

Lemma path_infos_of_first_rule body rule extra :
  ingress_rules body = Return (JList (rule :: extra)) ->
  path_infos_of body
  = (let+ http := getitem rule "http" in
     let+ paths := getitem http "paths" in
     iter paths).
Proof.
  unfold ingress_rules, path_infos_of.
  destruct (getitem body "spec") as [spec|e]; cbn [obind]; [|done].
  by intros ->.
Qed.

Lemma paths_loop_converts path_infos : forall acc paths,
  paths_loop path_infos acc = Return paths ->
  exists new,
    paths = acc ++ new
    /\ Forall2 (fun path_info path_obj => path_obj_of path_info = Return path_obj)
               path_infos new.
Proof.
  induction path_infos as [|path_info rest IH]; intros acc paths; cbn [paths_loop].
  - intros [= <-]. exists []. by rewrite app_nil_r.
  - destruct (path_obj_of path_info) as [path_obj|e] eqn:Hp; cbn [obind]; [|done].
    intros Hrest. destruct (IH _ _ Hrest) as (new & -> & Hall).
    exists (path_obj :: new). rewrite <- app_assoc. split; [done|]. by constructor.
Qed.

Lemma update_ingress_submits (K : control_plane) ingress_name ingress_body (w : trace) paths :
  _update_ingress_paths ingress_body = Return paths ->
  exists evs,
    snd (update_ingress K ingress_name ingress_body w) = w ++ evs
    /\ forall c rules,
         In c (invocations evs) -> submitted_rules c = Some rules ->
         rules = [ {| client.http := {| client.paths := paths |} |} ].
Proof.
  intros Hb.
  set (lst := list_namespaced_ingress_with_http_info "default").
  destruct (K w lst) as [[data status]|e] eqn:Hl.
  2: { exists [Invoked lst]. rewrite (update_ingress_list_raises K _ _ w paths e Hb Hl).
       split; [done|]. by intros c rules [<-|[]]. }
  destruct (decide (status = 200%Z)) as [->|Hs].
  2: { exists [Invoked lst]. rewrite (update_ingress_list_status K _ _ w paths data status Hb Hl Hs).
       split; [done|]. by intros c rules [<-|[]]. }
  destruct (in_dec String.string_dec ingress_name
              (map (fun ele => client.name (client.metadata ele)) (client.items data)))
    as [Hin|Hout].
  - eexists. rewrite (update_ingress_replace K _ _ w paths data Hb Hl Hin).
    split; [done|]. intros c rules [<-|[<-|[]]]; [done|]. by intros [= <-].
  - eexists. rewrite (update_ingress_create K _ _ w paths data Hb Hl Hout).
    split; [done|]. intros c rules [<-|[<-|[]]]; [done|]. by intros [= <-].
Qed.

Lemma path_obj_of_fields entry path_obj :
  path_obj_of entry = Return path_obj ->
  exists b,
    getitem entry "path" = Return (client.path path_obj)
    /\ getitem entry "backend" = Return b
    /\ getitem b "servicePort" = Return (client.service_port (client.backend path_obj))
    /\ getitem b "serviceName" = Return (client.service_name (client.backend path_obj)).
Proof.
  unfold path_obj_of.
  destruct (getitem entry "path") as [p|e] eqn:Hp; cbn [obind]; [|done].
  destruct (getitem entry "backend") as [b|e] eqn:Hb; cbn [obind]; [|done].
  destruct (getitem b "servicePort") as [port|e] eqn:Hport; cbn [obind]; [|done].
  destruct (getitem b "serviceName") as [sname|e] eqn:Hname; cbn [obind]; [|done].
  unfold client.NetworkingV1beta1IngressBackend__init__.
  destruct (client.is_None sname); [done|]. destruct (client.is_None port); [done|].
  cbn. intros [= <-]. by exists b.
Qed.

Lemma paths_loop_written (l : list (string * string * Z)) : forall acc,
  paths_loop (map (fun x => path_info x.1.1 x.1.2 x.2) l) acc
  = Return (acc ++ map (fun x => {| client.path := JStr x.1.1;
                                    client.backend :=
                                      {| client.service_port := JInt x.2;
                                         client.service_name := JStr x.1.2 |} |}) l).
Proof.
  induction l as [|[[p n] port] l IH]; intros acc; cbn [map paths_loop].
  - by rewrite app_nil_r.
  - change (path_obj_of (path_info (p, n, port).1.1 (p, n, port).1.2 (p, n, port).2))
      with (Return {| client.path := JStr p;
                      client.backend := {| client.service_port := JInt port;
                                           client.service_name := JStr n |} |}).
    cbn [obind]. rewrite IH, <- app_assoc. reflexivity.
Qed.

Lemma update_ingress_writes (K : control_plane) ingress_name ingress_body (w : trace) paths data :
  _update_ingress_paths ingress_body = Return paths ->
  K w (list_namespaced_ingress_with_http_info "default") = Return (data, 200%Z) ->
  exists c,
    snd (update_ingress K ingress_name ingress_body w)
    = w ++ [Invoked (list_namespaced_ingress_with_http_info "default"); Invoked c]
    /\ submitted_rules c = Some [ {| client.http := {| client.paths := paths |} |} ].
Proof.
  intros Hb Hl.
  destruct (in_dec String.string_dec ingress_name
              (map (fun ele => client.name (client.metadata ele)) (client.items data)))
    as [Hin|Hout].
  - eexists. by rewrite (update_ingress_replace K _ _ w paths data Hb Hl Hin).
  - eexists. by rewrite (update_ingress_create K _ _ w paths data Hb Hl Hout).
Qed.

(** C10.  [update_ingress] reads the path rules of [rules[0]] only: two
    bodies whose rule lists start with the same rule yield the same paths,
    whatever rules follow.  The paths are the conversions of the entries of
    [rules[0].http.paths], one for one and in their order: the [i]-th path
    holds what the [i]-th entry has under [path], [backend.servicePort] and
    [backend.serviceName]; for a body written with the three of them in
    every entry, the conversion returns, whatever rules follow the first.
    Every manifest the call submits holds exactly one rule, with these
    paths; and it does submit one, right after the listing, whenever the
    listing returned with status 200. *)
Theorem ingress_reads_first_rule_only :
  (forall body1 body2 rule extra1 extra2,
     ingress_rules body1 = Return (JList (rule :: extra1)) ->
     ingress_rules body2 = Return (JList (rule :: extra2)) ->
     _update_ingress_paths body1 = _update_ingress_paths body2)
  /\ (forall (K : control_plane) ingress_name ingress_body (w : trace) paths,
        _update_ingress_paths ingress_body = Return paths ->
        (exists path_infos,
           path_infos_of ingress_body = Return path_infos
           /\ Forall2 (fun path_info path_obj => path_obj_of path_info = Return path_obj)
                      path_infos paths)
        /\ exists evs,
             snd (update_ingress K ingress_name ingress_body w) = w ++ evs
             /\ forall c rules,
                  In c (invocations evs) -> submitted_rules c = Some rules ->
                  rules = [ {| client.http := {| client.paths := paths |} |} ])
  /\ (forall ingress_body rule extra http entries paths,
        ingress_rules ingress_body = Return (JList (rule :: extra)) ->
        getitem rule "http" = Return http ->
        getitem http "paths" = Return (JList entries) ->
        _update_ingress_paths ingress_body = Return paths ->
        Forall2 (fun entry path_obj =>
                   exists b,
                     getitem entry "path" = Return (client.path path_obj)
                     /\ getitem entry "backend" = Return b
                     /\ getitem b "servicePort"
                        = Return (client.service_port (client.backend path_obj))
                     /\ getitem b "serviceName"
                        = Return (client.service_name (client.backend path_obj)))
                entries paths)
  /\ (forall (written : list (string * string * Z)) extra,
        _update_ingress_paths
          (body_of (rule_of (map (fun x => path_info x.1.1 x.1.2 x.2) written) :: extra))
        = Return (map (fun x => {| client.path := JStr x.1.1;
                                   client.backend :=
                                     {| client.service_port := JInt x.2;
                                        client.service_name := JStr x.1.2 |} |}) written))
  /\ (forall (K : control_plane) ingress_name ingress_body (w : trace) paths data,
        _update_ingress_paths ingress_body = Return paths ->
        K w (list_namespaced_ingress_with_http_info "default") = Return (data, 200%Z) ->
        exists c,
          snd (update_ingress K ingress_name ingress_body w)
          = w ++ [Invoked (list_namespaced_ingress_with_http_info "default"); Invoked c]
          /\ submitted_rules c = Some [ {| client.http := {| client.paths := paths |} |} ]).
Proof.
  split; [|split; [|split; [|split]]].
  - intros body1 body2 rule extra1 extra2 H1 H2. unfold _update_ingress_paths.
    by rewrite (path_infos_of_first_rule _ _ _ H1), (path_infos_of_first_rule _ _ _ H2).
  - intros K ingress_name ingress_body w paths Hb. split.
    + unfold _update_ingress_paths in Hb.
      destruct (path_infos_of ingress_body) as [path_infos|e]; cbn [obind] in Hb; [|done].
      exists path_infos. split; [done|].
      by destruct (paths_loop_converts _ _ _ Hb) as (new & -> & Hall).
    + by apply update_ingress_submits.
  - intros ingress_body rule extra http entries paths Hrules Hhttp Hpaths Hb.
    unfold _update_ingress_paths in Hb.
    rewrite (path_infos_of_first_rule _ _ _ Hrules), Hhttp in Hb. cbn [obind] in Hb.
    rewrite Hpaths in Hb. cbn [obind iter] in Hb.
    destruct (paths_loop_converts _ _ _ Hb) as (new & -> & Hall). cbn [app].
    eapply Forall2_impl; [exact Hall|]. intros entry path_obj. apply path_obj_of_fields.
  - intros written extra. unfold _update_ingress_paths.
    change (path_infos_of
              (body_of (rule_of (map (fun x => path_info x.1.1 x.1.2 x.2) written) :: extra)))
      with (Return (A := list json) (map (fun x => path_info x.1.1 x.1.2 x.2) written)).
    cbn [obind]. by rewrite paths_loop_written.
  - intros K ingress_name ingress_body w paths data. apply update_ingress_writes.
Qed.

Lemma ingress_reads_first_rule_only_witness :
  _update_ingress_paths
    (body_of [rule_of [path_info "/a" "svc1" 80; path_info "/b" "svc2" 81];
              rule_of [path_info "/c" "svc3" 82]])
  = _update_ingress_paths
      (body_of [rule_of [path_info "/a" "svc1" 80; path_info "/b" "svc2" 81]])
  /\ (exists evs,
        snd (update_ingress (listing [] 200) "ing1"
               (body_of [rule_of [path_info "/a" "svc1" 80; path_info "/b" "svc2" 81];
                         rule_of [path_info "/c" "svc3" 82]]) []) = [] ++ evs
        /\ forall c rules,
             In c (invocations evs) -> submitted_rules c = Some rules ->
             rules
             = [ {| client.http :=
                      {| client.paths :=
                           [ {| client.path := JStr "/a";
                                client.backend :=
                                  {| client.service_port := JInt 80;
                                     client.service_name := JStr "svc1" |} |};
                             {| client.path := JStr "/b";
                                client.backend :=
                                  {| client.service_port := JInt 81;
                                     client.service_name := JStr "svc2" |} |} ] |} |} ])
  /\ (exists c,
        snd (update_ingress (listing [] 200) "ing1"
               (body_of [rule_of [path_info "/a" "svc1" 80; path_info "/b" "svc2" 81];
                         rule_of [path_info "/c" "svc3" 82]]) [])
        = [] ++ [Invoked (list_namespaced_ingress_with_http_info "default"); Invoked c]
        /\ submitted_rules c
           = Some [ {| client.http :=
                         {| client.paths :=
                              [ {| client.path := JStr "/a";
                                   client.backend :=
                                     {| client.service_port := JInt 80;
                                        client.service_name := JStr "svc1" |} |};
                                {| client.path := JStr "/b";
                                   client.backend :=
                                     {| client.service_port := JInt 81;
                                        client.service_name := JStr "svc2" |} |} ] |} |} ]).
Proof.
  split; [|split].
  - apply (proj1 ingress_reads_first_rule_only) with
      (rule := rule_of [path_info "/a" "svc1" 80; path_info "/b" "svc2" 81])
      (extra1 := [rule_of [path_info "/c" "svc3" 82]]) (extra2 := []); reflexivity.
  - apply (proj1 (proj2 ingress_reads_first_rule_only) (listing [] 200) "ing1"). reflexivity.
  - apply (proj2 (proj2 (proj2 (proj2 ingress_reads_first_rule_only))) (listing [] 200) "ing1"
             _ [] _ {| client.items := [] |}); reflexivity.
Defined.

(** * Further properties of the code *)

Import Account.

(** ** The retry loop: waits, records, and callables of any kind *)

Lemma slept_app a b : slept (a ++ b) = slept a + slept b.
Proof. induction a as [|ev a IH]; [done|]. destruct ev; cbn; rewrite ?IH; lia. Qed.

Lemma errors_logged_app a b : errors_logged (a ++ b) = errors_logged a ++ errors_logged b.
Proof. induction a as [|ev a IH]; [done|]. destruct ev; cbn; by rewrite ?IH. Qed.

Lemma infos_logged_app a b : infos_logged (a ++ b) = infos_logged a ++ infos_logged b.
Proof. induction a as [|ev a IH]; [done|]. destruct ev; cbn; by rewrite ?IH. Qed.

Lemma refused_app a b : refused (a ++ b) = refused a + refused b.
Proof. induction a as [|[c ok] a IH]; [done|]. cbn. rewrite IH. lia. Qed.

Lemma retry_run_ledger K c ws w n r evs :
  retry_run K c ws w n r evs ->
  exists k,
    invocations evs = repeat c k
    /\ 1 <= k <= n
    /\ (is_raise r = true -> k = n)
    /\ slept evs = (k - 1) * ws
    /\ infos_logged evs = repeat (RetryingAfter ws) (k - 1)
    /\ length (errors_logged evs) = 2 * (if is_raise r then k else k - 1)
    /\ refused (exchanges K w evs) = (if is_raise r then k else k - 1).
Proof.
  induction 1 as [w n v HK|w e HK|w n e r evs HK Hrun (k & Hk & Hle & Hlast & Hs & Hi & He & Hx)].
  - exists 1. cbn. rewrite HK. cbn. repeat split; (done || lia).
  - exists 1. cbn. rewrite HK. cbn. repeat split; (done || lia).
  - exists (S k). rewrite exchanges_app, refused_app, slept_app, infos_logged_app,
      errors_logged_app, length_app, invocations_app, Hk, Hs, Hi, He, Hx.
    cbn. rewrite HK. cbn.
    replace (k - 0) with (S (k - 1)) by lia.
    repeat split; try (done || lia).
    + intros Hr. f_equal. auto.
    + destruct (is_raise r); lia.
    + destruct (is_raise r); lia.
Qed.

(** X1.  What a retried call costs.  A call through [_retry] that invokes
    the operation [k] times ([1 <= k <= RETRY_TIMES + 1]; [k = RETRY_TIMES + 1]
    when it raises) sleeps [k - 1] times [RETRY_WAIT_SECS] seconds, so at
    most five seconds; it writes one retry record per wait and two error
    records per refused invocation.  Every refused invocation is followed by
    a wait, except the one that exhausts the budget. *)
Theorem retry_waits (K : control_plane) (c : api_call) (w : trace) :
  exists r evs k,
    _retry (call K c) w = (r, w ++ evs)
    /\ invocations evs = repeat c k
    /\ 1 <= k <= RETRY_TIMES + 1
    /\ (is_raise r = true -> k = RETRY_TIMES + 1)
    /\ slept evs = (k - 1) * RETRY_WAIT_SECS
    /\ slept evs <= RETRY_TIMES * RETRY_WAIT_SECS
    /\ infos_logged evs = repeat (RetryingAfter RETRY_WAIT_SECS) (k - 1)
    /\ length (errors_logged evs) = 2 * refused (exchanges K w evs)
    /\ refused (exchanges K w evs) = (if is_raise r then k else k - 1).
Proof.
  destruct (retry_call_run K c w) as (r & evs & Hrun & Hrel).
  destruct (retry_run_ledger _ _ _ _ _ _ _ Hrel) as (k & Hk & Hle & Hlast & Hs & Hi & He & Hx).
  exists r, evs, k. rewrite Hx. repeat split; try (done || lia).
  rewrite Hs. unfold RETRY_TIMES, RETRY_WAIT_SECS in *. lia.
Qed.

Section AnyCallable.
Context {R : Type} (func : M R) (ws : nat).

Lemma retried_loop_step no nos w :
  retried_loop func ws (no :: nos) w
  = match func w with
    | (Return r, w1) => (Return (Some r), w1)
    | (Raise e, w1) =>
        if Nat.eqb no RETRY_TIMES
        then (Raise e, w1 ++ [LoggerError ErrorWhenCalling; LoggerError (Traceback e)])
        else retried_loop func ws nos
               (w1 ++ [LoggerError ErrorWhenCalling; LoggerError (Traceback e);
                       LoggerInfo (RetryingAfter ws); Slept ws])
    end.
Proof.
  cbn [retried_loop]. unfold bind at 1, try.
  destruct (func w) as [[r|e] w1]; [done|].
  unfold bind at 1, logger_error at 1. unfold bind at 1, logger_error at 1.
  destruct (Nat.eqb no RETRY_TIMES).
  - unfold raise. by rewrite <- !app_assoc.
  - unfold bind at 1, logger_info at 1. unfold bind at 1, time_sleep at 1.
    by rewrite <- !app_assoc.
Qed.

Lemma retried_loop_ends nos : forall w,
  In RETRY_TIMES nos ->
  fst (retried_loop func ws nos w) <> Return None
  /\ ((forall s, is_raise (fst (func s)) = true) ->
        is_raise (fst (retried_loop func ws nos w)) = true).
Proof.
  induction nos as [|no rest IH]; intros w Hin; [done|].
  rewrite retried_loop_step.
  destruct (func w) as [[r|e] w1] eqn:Hf.
  - split; [done|]. intros Hall. specialize (Hall w). by rewrite Hf in Hall.
  - destruct (Nat.eqb_spec no RETRY_TIMES) as [->|Hne]; [done|].
    apply IH. by destruct Hin as [->|Hin].
Qed.

End AnyCallable.

(** X2.  [_retry] around any callable, whatever it does besides calling the
    cluster.  The wrapper never returns the [None] of a function that falls
    off its end: the last round of the loop returns or raises.  A callable
    that returns at once is run once, and its value and its effects are all
    there is (no record, no wait).  A callable that raises whenever it is
    run makes the wrapper raise. *)
Theorem retry_any_callable {R : Type} (func : M R) (w : trace) :
  fst (_retry func w) <> Return None
  /\ (forall r w', func w = (Return r, w') -> _retry func w = (Return (Some r), w'))
  /\ ((forall s, is_raise (fst (func s)) = true) -> is_raise (fst (_retry func w)) = true).
Proof.
  assert (In RETRY_TIMES (seq 0 (RETRY_TIMES + 1))) as Hin by (cbn; tauto).
  destruct (retried_loop_ends func RETRY_WAIT_SECS _ w Hin) as [Hnone Hall].
  split; [exact Hnone|]. split; [|exact Hall].
  intros r w' Hf. unfold _retry. cbn [seq Nat.add RETRY_TIMES].
  by rewrite retried_loop_step, Hf.
Qed.

Lemma retry_any_callable_witness :
  _retry (call (down_for 0) (delete_namespaced_service "svc1" "default")) []
  = (Return (Some (JStr "ok")), [Invoked (delete_namespaced_service "svc1" "default")])
  /\ is_raise (fst (_retry (call always_down (delete_namespaced_service "svc1" "default")) []))
     = true.
Proof.
  split.
  - apply (proj1 (proj2 (retry_any_callable
                           (call (down_for 0) (delete_namespaced_service "svc1" "default")) []))).
    reflexivity.
  - apply (proj2 (proj2 (retry_any_callable
                           (call always_down (delete_namespaced_service "svc1" "default")) []))).
    intros s. reflexivity.
Defined.

(** ** The manifests: labels, selectors, ports *)

(** X3.  The workload manifest selects its own pods.  For every request the
    selector [spec.selector.matchLabels], the labels of the pod template
    and the labels of the workload are the same [{name: service_name}]; the
    workload and its single container are named [service_name], and the
    replica count is the one given. *)
Theorem selector_matches_pod_labels (service_name docker_image : string) (replicas : Z)
    (args : list string) (environment_vars mounts : list (string * string))
    (publish_port : option (Z * Z)) (gpus : Z) :
  exists g t c,
    build (_create_deployment_config service_name docker_image replicas args
             environment_vars mounts publish_port gpus) = Return g
    /\ tree_of g = Some t
    /\ jpath ["spec"; "selector"; "matchLabels"] t = Some (JDict [("name", JStr service_name)])
    /\ jpath ["spec"; "template"; "metadata"; "labels"] t
       = jpath ["spec"; "selector"; "matchLabels"] t
    /\ jpath ["metadata"; "labels"] t = jpath ["spec"; "selector"; "matchLabels"] t
    /\ jpath ["metadata"; "name"] t = Some (JStr service_name)
    /\ jpath ["spec"; "replicas"] t = Some (JInt replicas)
    /\ jpath ["spec"; "template"; "spec"; "containers"] t = Some (JList [c])
    /\ jget "name" c = Some (JStr service_name).
Proof.
  eexists _, _, _.
  split; [apply build_deployment|].
  split; [apply deployment_snapshot|].
  repeat split; reflexivity.
Qed.

(** X4.  The network-service manifest selects the pods of the workload
    manifest built from the same arguments: its [spec.selector] is the
    label set of the pod template, and both objects carry the same name and
    the same labels. *)
Theorem service_selects_workload_pods (service_name docker_image : string) (replicas : Z)
    (args : list string) (environment_vars mounts : list (string * string))
    (publish_port : option (Z * Z)) (gpus : Z) :
  exists gs ts gd td,
    build (_create_service_config service_name docker_image replicas args
             environment_vars mounts publish_port gpus) = Return gs
    /\ tree_of gs = Some ts
    /\ build (_create_deployment_config service_name docker_image replicas args
                environment_vars mounts publish_port gpus) = Return gd
    /\ tree_of gd = Some td
    /\ jpath ["spec"; "selector"] ts = Some (JDict [("name", JStr service_name)])
    /\ jpath ["spec"; "selector"] ts = jpath ["spec"; "template"; "metadata"; "labels"] td
    /\ jpath ["metadata"; "name"] ts = jpath ["metadata"; "name"] td
    /\ jpath ["metadata"; "labels"] ts = jpath ["metadata"; "labels"] td.
Proof.
  eexists _, _, _, _.
  split; [apply build_service|].
  split; [apply service_snapshot|].
  split; [apply build_deployment|].
  split; [apply deployment_snapshot|].
  destruct publish_port as [[p0 p1]|]; repeat split; reflexivity.
Qed.

(** X5.  The network-service manifest, for any [publish_port].  With
    [publish_port = (p0, p1)] its spec is [type: NodePort], one port rule
    with [port] and [targetPort] both [p1] and [nodePort] [p0], and the
    selector; without [publish_port] the spec holds the selector only (no
    type, no ports).  The manifest depends on nothing but [service_name] and
    [publish_port]: image, replicas, arguments, environment, mounts and GPU
    count are not read. *)
Theorem service_manifest_shape (service_name docker_image : string) (replicas : Z)
    (args : list string) (environment_vars mounts : list (string * string))
    (publish_port : option (Z * Z)) (gpus : Z) :
  exists g t,
    build (_create_service_config service_name docker_image replicas args
             environment_vars mounts publish_port gpus) = Return g
    /\ tree_of g = Some t
    /\ jkeys t = ["apiVersion"; "kind"; "metadata"; "spec"]
    /\ jget "apiVersion" t = Some (JStr "v1")
    /\ jget "kind" t = Some (JStr "Service")
    /\ jget "spec" t
       = Some (JDict
                 (match publish_port with
                  | Some p =>
                      [("type", JStr "NodePort");
                       ("ports", JList [JDict [("port", JInt p.2); ("targetPort", JInt p.2);
                                               ("nodePort", JInt p.1)]])]
                  | None => []
                  end ++ [("selector", JDict [("name", JStr service_name)])]))
    /\ (forall docker_image' replicas' args' environment_vars' mounts' gpus',
          build (_create_service_config service_name docker_image' replicas' args'
                   environment_vars' mounts' publish_port gpus') = Return g).
Proof.
  eexists _, _.
  split; [apply build_service|].
  split; [apply service_snapshot|].
  do 3 (split; [reflexivity|]).
  split; [by destruct publish_port as [[p0 p1]|]|].
  intros. apply build_service.
Qed.

(** X6.  The workload manifest does not depend on [publish_port], and its
    container declares no ports.  Its keys are those of the source: four
    at the top, [replicas], [selector] and [template] in the spec,
    [containers] and [volumes] in the pod spec. *)
Theorem workload_declares_no_port (service_name docker_image : string) (replicas : Z)
    (args : list string) (environment_vars mounts : list (string * string))
    (publish_port publish_port' : option (Z * Z)) (gpus : Z) :
  build (_create_deployment_config service_name docker_image replicas args
           environment_vars mounts publish_port gpus)
  = build (_create_deployment_config service_name docker_image replicas args
             environment_vars mounts publish_port' gpus)
  /\ exists g t c,
       build (_create_deployment_config service_name docker_image replicas args
                environment_vars mounts publish_port gpus) = Return g
       /\ tree_of g = Some t
       /\ jpath ["spec"; "template"; "spec"; "containers"] t = Some (JList [c])
       /\ jget "ports" c = None
       /\ jkeys t = ["apiVersion"; "kind"; "metadata"; "spec"]
       /\ (exists s, jget "spec" t = Some s /\ jkeys s = ["replicas"; "selector"; "template"])
       /\ (exists s, jpath ["spec"; "template"; "spec"] t = Some s
                     /\ jkeys s = ["containers"; "volumes"]).
Proof.
  split; [by rewrite !build_deployment|].
  eexists _, _, _.
  split; [apply build_deployment|].
  split; [apply deployment_snapshot|].
  split; [reflexivity|].
  split; [unfold container_tree; by destruct (0 <? gpus)%Z|].
  split; [reflexivity|].
  split; eexists; split; reflexivity.
Qed.

(** X7.  A GPU count that is not positive is not rejected: the manifest is
    the one built for [gpus = 0], with no [resources] entry. *)
Theorem nonpositive_gpus_request_nothing (service_name docker_image : string) (replicas : Z)
    (args : list string) (environment_vars mounts : list (string * string))
    (publish_port : option (Z * Z)) (gpus : Z) :
  (gpus <= 0)%Z ->
  build (_create_deployment_config service_name docker_image replicas args
           environment_vars mounts publish_port gpus)
  = build (_create_deployment_config service_name docker_image replicas args
             environment_vars mounts publish_port 0)
  /\ exists g t c,
       build (_create_deployment_config service_name docker_image replicas args
                environment_vars mounts publish_port gpus) = Return g
       /\ tree_of g = Some t
       /\ jpath ["spec"; "template"; "spec"; "containers"] t = Some (JList [c])
       /\ jget "resources" c = None.
Proof.
  intros Hle. assert ((0 <? gpus)%Z = false) as Hg by (apply Z.ltb_ge; lia).
  split.
  - rewrite !build_deployment. unfold deployment_heap, deployment_head, deployment_tail.
    by rewrite Hg.
  - eexists _, _, _.
    split; [apply build_deployment|].
    split; [apply deployment_snapshot|].
    split; [reflexivity|].
    unfold container_tree. by rewrite Hg.
Qed.

Lemma nonpositive_gpus_request_nothing_witness :
  build (_create_deployment_config "svc1" "img:1" 2 [] [] [] None (-3))
  = build (_create_deployment_config "svc1" "img:1" 2 [] [] [] None 0)
  /\ exists g t c,
       build (_create_deployment_config "svc1" "img:1" 2 [] [] [] None (-3)) = Return g
       /\ tree_of g = Some t
       /\ jpath ["spec"; "template"; "spec"; "containers"] t = Some (JList [c])
       /\ jget "resources" c = None.
Proof. apply (nonpositive_gpus_request_nothing "svc1" "img:1" 2 [] [] [] None (-3)). lia. Defined.

(** ** create_service: what it costs and what it leaves behind *)

Lemma retry_run_first_ok K c ws w n r evs :
  is_raise (K w c) = false ->
  retry_run K c ws w n r evs ->
  exists v, K w c = Return v /\ r = Return (Some v) /\ evs = [Invoked c].
Proof.
  intros Hok Hrun. destruct Hrun as [w n v HK|w e HK|w n e r evs HK Hrun].
  - by exists v.
  - by rewrite HK in Hok.
  - by rewrite HK in Hok.
Qed.

Section CreateServiceRuns.
Context (K : control_plane) (service_name docker_image : string) (replicas : Z)
  (args : list string) (environment_vars mounts : list (string * string))
  (publish_port : option (Z * Z)) (gpus : Z) (w : trace).

Let svc := create_namespaced_service "default"
  (Graph (service_heap service_name publish_port) (VRef 0)).
Let dep := create_namespaced_deployment "default"
  (Graph (deployment_heap service_name docker_image replicas environment_vars mounts gpus) (VRef 0)).

(** The events of a call: those of the retried creation of the
    network-service (none without [publish_port]), then, unless that gave
    up, those of the retried creation of the workload. *)
Lemma create_service_run :
  exists r evs1 evs2 a b,
    create_service K service_name docker_image replicas args environment_vars mounts
      publish_port gpus w = (r, w ++ evs1 ++ evs2)
    /\ invocations evs1 = repeat svc a
    /\ invocations evs2 = repeat dep b
    /\ (publish_port = None -> evs1 = [])
    /\ (b = 0 -> evs2 = [])
    /\ slept (evs1 ++ evs2)
       = (refused (exchanges K w (evs1 ++ evs2)) - (if is_raise r then 1 else 0)) * RETRY_WAIT_SECS
    /\ a <= RETRY_TIMES + 1
    /\ b <= RETRY_TIMES + 1
    /\ (publish_port <> None -> 1 <= a)
    /\ (publish_port = None -> a = 0)
    /\ (b = 0 -> is_raise r = true /\ a = RETRY_TIMES + 1)
    /\ (is_raise r = true -> a = RETRY_TIMES + 1 \/ b = RETRY_TIMES + 1)
    /\ refused (exchanges K w (evs1 ++ evs2)) + (if is_raise r then 0 else 1)
       = a + b - (match publish_port with Some _ => if Nat.eqb b 0 then 0 else 1 | None => 0 end)
    /\ slept evs1 = (a - 1) * RETRY_WAIT_SECS
    /\ slept evs2 = (b - 1) * RETRY_WAIT_SECS.
Proof.
  subst svc dep. destruct publish_port as [p|].
  - destruct (create_service_exposed K service_name docker_image replicas args
                environment_vars mounts gpus p w) as (r1 & evs1 & Hrel1 & Hrun).
    destruct (retry_run_ledger _ _ _ _ _ _ _ Hrel1)
      as (a & Ha & Hle1 & Hlast1 & Hs1 & _ & _ & Hx1).
    destruct r1 as [v1|e1].
    + destruct Hrun as (r2 & evs2 & Hrel2 & Hrun).
      destruct (retry_run_ledger _ _ _ _ _ _ _ Hrel2)
        as (b & Hb & Hle2 & Hlast2 & Hs2 & _ & _ & Hx2).
      eexists _, evs1, evs2, a, b.
      split; [exact Hrun|]. split; [exact Ha|]. split; [exact Hb|].
      split; [discriminate|]. split; [lia|].
      rewrite exchanges_app, refused_app, slept_app, Hs1, Hs2, Hx1, Hx2.
      clear Hrun Hrel1 Hrel2 Ha Hb Hs1 Hs2 Hx1 Hx2.
      cbn [is_raise] in *. unfold RETRY_WAIT_SECS.
      destruct (Nat.eqb_spec b 0) as [->|Hb0]; [lia|].
      assert (is_raise r2 = is_raise (match r2 with
                                      | Return _ => Return {| id := service_name; hostname := service_name; exposed_port := Some p.1; info := [("node_id", JStr "default"); ("gpu_nos", JInt gpus); ("service_name", JStr service_name); ("replicas", JInt replicas)] |}
                                      | Raise e => Raise e
                                      end)) as <- by (by destruct r2).
      destruct (is_raise r2).
      * specialize (Hlast2 eq_refl). repeat split; lia || congruence.
      * repeat split; lia || congruence.
    + eexists _, evs1, [], a, 0. rewrite app_nil_r.
      split; [exact Hrun|]. split; [exact Ha|]. split; [reflexivity|].
      split; [discriminate|]. split; [reflexivity|].
      cbn [slept]. rewrite Hs1, Hx1. clear Hrun Hrel1 Ha Hs1 Hx1.
      cbn [is_raise Nat.eqb] in *. unfold RETRY_WAIT_SECS.
      specialize (Hlast1 eq_refl).
      repeat split; lia || congruence.
  - destruct (create_service_headless K service_name docker_image replicas args
                environment_vars mounts gpus w) as (r & evs & Hrel & Hrun).
    destruct (retry_run_ledger _ _ _ _ _ _ _ Hrel)
      as (b & Hb & Hle & Hlast & Hs & _ & _ & Hx).
    eexists _, [], evs, 0, b.
    split; [exact Hrun|]. split; [reflexivity|]. split; [exact Hb|].
    split; [reflexivity|]. split; [lia|].
    cbn [app slept]. rewrite Hs, Hx. clear Hrun Hrel Hb Hs Hx.
    unfold RETRY_WAIT_SECS.
    assert (is_raise r = is_raise (match r with
                                   | Return _ => Return {| id := service_name; hostname := service_name; exposed_port := None; info := [("node_id", JStr "default"); ("gpu_nos", JInt gpus); ("service_name", JStr service_name); ("replicas", JInt replicas)] |}
                                   | Raise e => Raise e
                                   end)) as <- by (by destruct r).
    destruct (is_raise r).
    + specialize (Hlast eq_refl). repeat split; lia || congruence.
    + repeat split; lia || congruence.
Qed.

End CreateServiceRuns.

Lemma times_repeat v c n :
  count_verb v (repeat c n) = if verb_eqb (verb_of c) v then n else 0.
Proof.
  induction n as [|n IH]; cbn; [by destruct (verb_eqb _ _)|].
  rewrite IH. by destruct (verb_eqb _ _).
Qed.

Lemma exchanges_all_refused K c n : forall w evs,
  (forall h, is_raise (K h c) = true) ->
  invocations evs = repeat c n ->
  exchanges K w evs = repeat (c, false) n.
Proof.
  intros w evs Hdown. revert w n. induction evs as [|ev evs IH]; intros w n Hinv.
  - destruct n; [done|discriminate].
  - destruct ev as [c'| | |]; cbn in *; try by apply IH.
    destruct n as [|n]; [discriminate|]. cbn in Hinv. injection Hinv as -> Hinv.
    rewrite Hdown. cbn. f_equal. by apply IH.
Qed.

(** X8.  [create_service] does not undo what it has created.  When the
    creation of the network-service is accepted at once and every creation
    of the workload is refused, the call raises after one accepted and
    [RETRY_TIMES + 1] refused invocations, and it has invoked no deletion:
    the network-service stays. *)
Theorem failed_workload_leaves_service (K : control_plane) (service_name docker_image : string)
    (replicas : Z) (args : list string) (environment_vars mounts : list (string * string))
    (p : Z * Z) (gpus : Z) (w : trace) gs gd :
  build (_create_service_config service_name docker_image replicas args
           environment_vars mounts (Some p) gpus) = Return gs ->
  build (_create_deployment_config service_name docker_image replicas args
           environment_vars mounts (Some p) gpus) = Return gd ->
  is_raise (K w (create_namespaced_service "default" gs)) = false ->
  (forall h, is_raise (K h (create_namespaced_deployment "default" gd)) = true) ->
  exists e evs,
    create_service K service_name docker_image replicas args environment_vars mounts
      (Some p) gpus w = (Raise e, w ++ evs)
    /\ exchanges K w evs
       = (create_namespaced_service "default" gs, true)
         :: repeat (create_namespaced_deployment "default" gd, false) (RETRY_TIMES + 1)
    /\ times DeleteService evs = 0
    /\ times DeleteWorkload evs = 0.
Proof.
  rewrite build_service, build_deployment. intros [= <-] [= <-] Hsvc Hdep.
  destruct (create_service_exposed K service_name docker_image replicas args
              environment_vars mounts gpus p w) as (r1 & evs1 & Hrel1 & Hrun).
  destruct (retry_run_first_ok _ _ _ _ _ _ _ Hsvc Hrel1) as (v1 & HK1 & -> & ->).
  destruct Hrun as (r2 & evs2 & Hrel2 & Hrun).
  pose proof (retry_run_all_fail _ _ _ _ _ _ _ Hrel2 Hdep) as Hr2.
  destruct (retry_run_invocations _ _ _ _ _ _ _ Hrel2) as (k & Hk & _ & Hlast).
  specialize (Hlast Hr2). subst k.
  destruct r2 as [?|e]; [done|].
  eexists e, (_ :: evs2). split; [exact Hrun|].
  split.
  - cbn [app exchanges]. rewrite HK1. cbn [is_raise negb]. f_equal.
    by apply exchanges_all_refused.
  - unfold times. cbn [invocations count_verb]. rewrite Hk, !times_repeat. done.
Qed.

Lemma failed_workload_leaves_service_witness :
  exists e evs,
    create_service (refusing CreateWorkload) "svc1" "img:1" 2 [] [] [] (Some (30080, 8080)%Z) 0 []
      = (Raise e, [] ++ evs)
    /\ times DeleteService evs = 0
    /\ times DeleteWorkload evs = 0.
Proof.
  destruct (failed_workload_leaves_service (refusing CreateWorkload) "svc1" "img:1" 2 [] [] []
              (30080, 8080)%Z 0 []
              (Graph (service_heap "svc1" (Some (30080, 8080)%Z)) (VRef 0))
              (Graph (deployment_heap "svc1" "img:1" 2 [] [] 0) (VRef 0))
              (build_service "svc1" "img:1" 2 [] [] [] (Some (30080, 8080)%Z) 0)
              (build_deployment "svc1" "img:1" 2 [] [] [] (Some (30080, 8080)%Z) 0)
              eq_refl (fun h => eq_refl))
    as (e & evs & Hrun & _ & Hds & Hdw).
  exists e, evs. split; [exact Hrun|]. split; [exact Hds|exact Hdw].
Defined.

(** X9.  What [create_service] costs.  Its events are those of a retried
    creation of the network-service (none without [publish_port], at least
    one invocation with it) followed by those of a retried creation of the
    workload, each of the manifest built for it.  Each of the two makes at
    most [RETRY_TIMES + 1] invocations and sleeps [RETRY_WAIT_SECS] seconds
    between two of them, so at most [RETRY_TIMES * RETRY_WAIT_SECS] seconds;
    the workload is left unattempted only when the network-service used up
    its budget.  In all, the call sleeps [RETRY_WAIT_SECS] seconds after
    every refused invocation but the one on which it gives up; when nothing
    is refused it returns without any wait, after exactly one invocation
    per retried call; when it raises, one of the two used up its budget and
    at least [RETRY_TIMES + 1] invocations were refused. *)
Theorem create_service_waits (K : control_plane) (service_name docker_image : string)
    (replicas : Z) (args : list string) (environment_vars mounts : list (string * string))
    (publish_port : option (Z * Z)) (gpus : Z) (w : trace) :
  let calls := match publish_port with Some _ => 2 | None => 1 end in
  exists gs gd r evs1 evs2 a b,
    build (_create_service_config service_name docker_image replicas args
             environment_vars mounts publish_port gpus) = Return gs
    /\ build (_create_deployment_config service_name docker_image replicas args
                environment_vars mounts publish_port gpus) = Return gd
    /\ create_service K service_name docker_image replicas args environment_vars mounts
         publish_port gpus w = (r, w ++ evs1 ++ evs2)
    /\ invocations evs1 = repeat (create_namespaced_service "default" gs) a
    /\ invocations evs2 = repeat (create_namespaced_deployment "default" gd) b
    /\ (publish_port = None -> evs1 = [])
    /\ (publish_port <> None -> 1 <= a)
    /\ a <= RETRY_TIMES + 1
    /\ b <= RETRY_TIMES + 1
    /\ slept evs1 = (a - 1) * RETRY_WAIT_SECS
    /\ slept evs2 = (b - 1) * RETRY_WAIT_SECS
    /\ slept evs1 <= RETRY_TIMES * RETRY_WAIT_SECS
    /\ slept evs2 <= RETRY_TIMES * RETRY_WAIT_SECS
    /\ (b = 0 -> evs2 = [] /\ a = RETRY_TIMES + 1 /\ is_raise r = true)
    /\ (is_raise r = true -> a = RETRY_TIMES + 1 \/ b = RETRY_TIMES + 1)
    /\ slept (evs1 ++ evs2)
       = (refused (exchanges K w (evs1 ++ evs2)) - (if is_raise r then 1 else 0))
         * RETRY_WAIT_SECS
    /\ slept (evs1 ++ evs2) <= calls * (RETRY_TIMES * RETRY_WAIT_SECS)
    /\ length (invocations (evs1 ++ evs2)) <= calls * (RETRY_TIMES + 1)
    /\ (refused (exchanges K w (evs1 ++ evs2)) = 0 ->
          is_raise r = false /\ slept (evs1 ++ evs2) = 0
          /\ length (invocations (evs1 ++ evs2)) = calls)
    /\ (is_raise r = true -> RETRY_TIMES + 1 <= refused (exchanges K w (evs1 ++ evs2))).
Proof.
  intros calls.
  destruct (create_service_run K service_name docker_image replicas args environment_vars
              mounts publish_port gpus w)
    as (r & evs1 & evs2 & a & b & Hrun & Ha & Hb & Hnone1 & Hb0e & Hs & Hla & Hlb & Hsome & Hnone
        & Hb0 & Hr & Hx & Hs1 & Hs2).
  eexists _, _, r, evs1, evs2, a, b.
  split; [apply build_service|]. split; [apply build_deployment|].
  split; [exact Hrun|]. split; [exact Ha|]. split; [exact Hb|].
  split; [exact Hnone1|]. split; [exact Hsome|]. split; [exact Hla|]. split; [exact Hlb|].
  split; [exact Hs1|]. split; [exact Hs2|].
  split; [rewrite Hs1; unfold RETRY_TIMES, RETRY_WAIT_SECS in *; lia|].
  split; [rewrite Hs2; unfold RETRY_TIMES, RETRY_WAIT_SECS in *; lia|].
  split; [intros Hb'; destruct (Hb0 Hb') as [? ?]; by rewrite (Hb0e Hb')|].
  split; [exact Hr|]. split; [exact Hs|].
  rewrite Hs, invocations_app, length_app, Ha, Hb, !repeat_length.
  clear Hrun Ha Hb Hs Hs1 Hs2 Hnone1 Hb0e.
  subst calls. unfold RETRY_TIMES, RETRY_WAIT_SECS in *.
  destruct publish_port as [p|].
  - specialize (Hsome ltac:(discriminate)). clear Hnone.
    destruct (Nat.eqb_spec b 0) as [->|Hne].
    + destruct (Hb0 eq_refl) as (Hraise & ->). rewrite Hraise in *. repeat split; lia.
    + clear Hb0. destruct (is_raise r).
      * destruct (Hr eq_refl); repeat split; lia.
      * repeat split; lia || discriminate.
  - specialize (Hnone eq_refl). subst a. clear Hsome.
    destruct (Nat.eqb_spec b 0) as [->|Hne].
    + destruct (Hb0 eq_refl) as (_ & Ha). discriminate Ha.
    + clear Hb0. destruct (is_raise r).
      * destruct (Hr eq_refl); repeat split; lia.
      * repeat split; lia || discriminate.
Qed.

(** X10.  The handle [create_service] returns is made of its arguments
    only: two calls with the same [service_name], [replicas], [publish_port]
    and [gpus] that return, return the same handle, whatever the control
    planes answered and whatever image, arguments, environment and mounts
    were given.  Its first two fields are both [service_name], its
    [node_id] is always [default], and [gpu_nos] is the count as given. *)
Theorem handle_ignores_cluster (K1 K2 : control_plane) (service_name : string) (replicas : Z)
    (publish_port : option (Z * Z)) (gpus : Z)
    (docker_image1 docker_image2 : string) (args1 args2 : list string)
    (environment_vars1 environment_vars2 mounts1 mounts2 : list (string * string))
    (w1 w2 : trace) (svc1 svc2 : ContainerService) :
  fst (create_service K1 service_name docker_image1 replicas args1 environment_vars1 mounts1
         publish_port gpus w1) = Return svc1 ->
  fst (create_service K2 service_name docker_image2 replicas args2 environment_vars2 mounts2
         publish_port gpus w2) = Return svc2 ->
  svc1 = svc2
  /\ id svc1 = service_name
  /\ hostname svc1 = id svc1
  /\ dict_get "node_id" (info svc1) = Some (JStr "default")
  /\ dict_get "gpu_nos" (info svc1) = Some (JInt gpus).
Proof.
  intros H1 H2.
  rewrite (create_service_returns _ _ _ _ _ _ _ _ _ _ _ H1),
          (create_service_returns _ _ _ _ _ _ _ _ _ _ _ H2).
  repeat split.
Qed.

Lemma handle_ignores_cluster_witness :
  exists svc1 svc2,
    fst (create_service (down_for 0) "svc1" "img:1" 2 [] [] [] None (-1) []) = Return svc1
    /\ fst (create_service (down_for 3) "svc1" "img:2" 2 ["--x"] [("A", "1")] [("/h", "/c")]
              None (-1) []) = Return svc2
    /\ svc1 = svc2
    /\ dict_get "gpu_nos" (info svc1) = Some (JInt (-1)).
Proof.
  eexists _, _. split; [vm_compute; reflexivity|]. split; [vm_compute; reflexivity|].
  pose proof (handle_ignores_cluster (down_for 0) (down_for 3) "svc1" 2 None (-1)
                "img:1" "img:2" [] ["--x"] [] [("A", "1")] [] [("/h", "/c")] [] [] _ _
                ltac:(vm_compute; reflexivity) ltac:(vm_compute; reflexivity))
    as (Heq & _ & _ & _ & Hg).
  split; [exact Heq|exact Hg].
Defined.

(** ** destroy_service after create_service *)

(** X11.  [destroy_service] on the handle of a [create_service] that
    returned.  Both manifests are built under the name [service_name], the
    workload was submitted at least once, and the deletions address that
    name: first the workload, then, if that deletion returned, the
    network-service.  This is so without [publish_port] too, where the call
    created no network-service.  The deletion returns exactly when both
    invocations do. *)
Theorem destroy_addresses_created_names (K : control_plane) (service_name docker_image : string)
    (replicas : Z) (args : list string) (environment_vars mounts : list (string * string))
    (publish_port : option (Z * Z)) (gpus : Z) (w w' : trace) (svc : ContainerService) :
  create_service K service_name docker_image replicas args environment_vars mounts
    publish_port gpus w = (Return svc, w') ->
  let d1 := delete_namespaced_deployment service_name "default" in
  let d2 := delete_namespaced_service service_name "default" in
  (exists gd td,
     build (_create_deployment_config service_name docker_image replicas args
              environment_vars mounts publish_port gpus) = Return gd
     /\ tree_of gd = Some td
     /\ jpath ["metadata"; "name"] td = Some (JStr service_name))
  /\ (exists gs ts,
        build (_create_service_config service_name docker_image replicas args
                 environment_vars mounts publish_port gpus) = Return gs
        /\ tree_of gs = Some ts
        /\ jpath ["metadata"; "name"] ts = Some (JStr service_name))
  /\ (exists created,
        w' = w ++ created
        /\ 1 <= times CreateWorkload created
        /\ (publish_port = None -> times CreateService created = 0))
  /\ exists r evs,
       destroy_service K svc w' = (r, w' ++ evs)
       /\ invocations evs = d1 :: (if is_raise (K w' d1) then [] else [d2])
       /\ (is_raise r = false <->
           is_raise (K w' d1) = false /\ is_raise (K (w' ++ [Invoked d1]) d2) = false).
Proof.
  intros Hcreate d1 d2.
  split.
  { eexists _, _. split; [apply build_deployment|]. split; [apply deployment_snapshot|]. done. }
  split.
  { eexists _, _. split; [apply build_service|]. split; [apply service_snapshot|].
    by destruct publish_port as [[p0 p1]|]. }
  pose proof (create_service_returns K service_name docker_image replicas args environment_vars
                mounts publish_port gpus w svc ltac:(by rewrite Hcreate)) as Hsvc.
  split.
  { destruct (create_service_run K service_name docker_image replicas args environment_vars
                mounts publish_port gpus w)
      as (r & evs1 & evs2 & a & b & Hrun & Ha & Hb & _ & _ & _ & _ & _ & _ & Hnone & Hb0 & _).
    rewrite Hcreate in Hrun. injection Hrun as <- ->.
    exists (evs1 ++ evs2). split; [reflexivity|].
    unfold times. rewrite invocations_app, !count_verb_app, Ha, Hb, !times_repeat.
    cbn [verb_of verb_eqb]. clear Hcreate Hsvc Ha Hb.
    split.
    - destruct b; [|lia]. destruct (Hb0 eq_refl) as (Hraise & _). discriminate Hraise.
    - intros Hp. rewrite (Hnone Hp). reflexivity. }
  assert (id svc = service_name) as Hid by (by rewrite Hsvc).
  unfold destroy_service. rewrite Hid. fold d1 d2.
  unfold bind, call, ret.
  destruct (K w' d1) as [v1|e1] eqn:H1; cbn [is_raise].
  - destruct (K (w' ++ [Invoked d1]) d2) as [v2|e2] eqn:H2; cbn [is_raise].
    + eexists _, [Invoked d1; Invoked d2]. rewrite <- app_assoc. split; [done|].
      split; [done|]. by split.
    + eexists _, [Invoked d1; Invoked d2]. rewrite <- app_assoc. split; [done|].
      split; [done|]. cbn. split; [done|]. by intros [_ ?].
  - eexists _, [Invoked d1]. split; [done|]. split; [done|]. cbn. split; [done|]. by intros [? _].
Qed.

Lemma destroy_addresses_created_names_witness :
  exists r evs,
    destroy_service (down_for 0)
      {| id := "svc1"; hostname := "svc1"; exposed_port := None;
         info := [("node_id", JStr "default"); ("gpu_nos", JInt 0);
                  ("service_name", JStr "svc1"); ("replicas", JInt 2)] |}
      [Invoked (create_namespaced_deployment "default"
                  (Graph (deployment_heap "svc1" "img:1" 2 [] [] 0) (VRef 0)))]
    = (r, [Invoked (create_namespaced_deployment "default"
                      (Graph (deployment_heap "svc1" "img:1" 2 [] [] 0) (VRef 0)))] ++ evs)
    /\ invocations evs
       = [delete_namespaced_deployment "svc1" "default";
          delete_namespaced_service "svc1" "default"].
Proof.
  destruct (destroy_addresses_created_names (down_for 0) "svc1" "img:1" 2 [] [] [] None 0 []
              [Invoked (create_namespaced_deployment "default"
                          (Graph (deployment_heap "svc1" "img:1" 2 [] [] 0) (VRef 0)))]
              {| id := "svc1"; hostname := "svc1"; exposed_port := None;
                 info := [("node_id", JStr "default"); ("gpu_nos", JInt 0);
                          ("service_name", JStr "svc1"); ("replicas", JInt 2)] |}
              ltac:(vm_compute; reflexivity))
    as (_ & _ & _ & r & evs & Hrun & Hinv & _).
  exists r, evs. split; [exact Hrun|exact Hinv].
Defined.

(** ** update_ingress: when it writes, and what *)

Section UpdateIngressCases.
Context (K : control_plane) (ingress_name : string) (ingress_body : json) (w : trace).

Let lst := list_namespaced_ingress_with_http_info "default".

Lemma update_ingress_run :
  exists r evs,
    update_ingress K ingress_name ingress_body w = (r, w ++ evs)
    /\ ingress_run K ingress_name ingress_body w r evs.
Proof.
  destruct (_update_ingress_paths ingress_body) as [paths|e] eqn:Hb.
  2: { exists (Raise e), []. rewrite app_nil_r. split; [by apply update_ingress_bad_body|].
       by constructor. }
  destruct (K w lst) as [[data status]|e] eqn:Hl.
  2: { exists (Raise e), [Invoked lst]. split; [by eapply update_ingress_list_raises|].
       by econstructor. }
  destruct (decide (status = 200%Z)) as [->|Hs].
  2: { eexists _, [Invoked lst]. split; [by eapply update_ingress_list_status|].
       by econstructor. }
  destruct (contains ingress_name
              (map (fun ele => client.name (client.metadata ele)) (client.items data))) eqn:Hc.
  - eexists _, _. split.
    + eapply update_ingress_replace; [done..|]. by apply contains_In.
    + eapply ingress_written; [done..|]. by rewrite Hc.
  - eexists _, _. split.
    + eapply update_ingress_create; [done..|]. intros Hin. apply contains_In in Hin. congruence.
    + eapply ingress_written; [done..|]. by rewrite Hc.
Qed.

End UpdateIngressCases.

(** X12.  [update_ingress] writes only after a listing that answered 200.
    A call invokes a create or a replace (one of them, once) if and only
    if the body could be converted and the listing returned with status
    200; it invokes neither if and only if the conversion raised (a key
    that is missing, a backend whose name or port is [None], ...), the
    listing raised, or the listing returned with another status. *)
Theorem write_requires_ok_listing (K : control_plane) (ingress_name : string)
    (ingress_body : json) (w : trace) :
  exists r evs,
    update_ingress K ingress_name ingress_body w = (r, w ++ evs)
    /\ (times CreateRule evs + times ReplaceRule evs = 1
        <-> exists paths data,
              _update_ingress_paths ingress_body = Return paths
              /\ K w (list_namespaced_ingress_with_http_info "default") = Return (data, 200%Z))
    /\ (times CreateRule evs + times ReplaceRule evs = 0
        <-> is_raise (_update_ingress_paths ingress_body) = true
            \/ is_raise (K w (list_namespaced_ingress_with_http_info "default")) = true
            \/ exists data status,
                 K w (list_namespaced_ingress_with_http_info "default") = Return (data, status)
                 /\ status <> 200%Z).
Proof.
  destruct (update_ingress_run K ingress_name ingress_body w) as (r & evs & Hrun & Hcase).
  exists r, evs. split; [exact Hrun|].
  destruct Hcase as [e Hb|paths e Hb Hl|paths data status Hb Hl Hs|paths data c Hb Hl ->].
  - rewrite Hb. cbn. split; split; try done.
    + by intros (? & ? & ? & _).
    + by left.
  - rewrite Hb, Hl. cbn. split; split; try done.
    + by intros (? & ? & _ & ?).
    + right. by left.
  - rewrite Hb, Hl. cbn. split; split; try done.
    + intros (? & ? & _ & [= _ ?]). done.
    + right. right. by eexists _, _.
  - rewrite Hb, Hl. cbn [is_raise]. destruct (contains _ _); cbn; (split; split; try done).
    + intros _. by eexists _, _.
    + intros [?|[?|(? & ? & [= _ <-] & ?)]]; done.
    + intros _. by eexists _, _.
    + intros [?|[?|(? & ? & [= _ <-] & ?)]]; done.
Qed.

Lemma write_requires_ok_listing_witness :
  (exists r evs,
     update_ingress (listing [] 200) "ing1" (body_of [rule_of [path_info "/a" "svc1" 80]]) []
       = (r, [] ++ evs)
     /\ times CreateRule evs + times ReplaceRule evs = 1)
  /\ (exists r evs,
        update_ingress (listing [] 200) "ing1"
          (body_of [rule_of [JDict [("path", JStr "/a");
                                    ("backend", JDict [("serviceName", JStr "svc1");
                                                       ("servicePort", JNone)])]]]) []
          = (r, [] ++ evs)
        /\ times CreateRule evs + times ReplaceRule evs = 0).
Proof.
  split.
  - destruct (write_requires_ok_listing (listing [] 200) "ing1"
                (body_of [rule_of [path_info "/a" "svc1" 80]]) [])
      as (r & evs & Hrun & Hone & _).
    exists r, evs. split; [exact Hrun|]. apply Hone. eexists _, _. split; reflexivity.
  - destruct (write_requires_ok_listing (listing [] 200) "ing1"
                (body_of [rule_of [JDict [("path", JStr "/a");
                                          ("backend", JDict [("serviceName", JStr "svc1");
                                                             ("servicePort", JNone)])]]]) [])
      as (r & evs & Hrun & _ & Hzero).
    exists r, evs. split; [exact Hrun|]. apply Hzero. left. reflexivity.
Defined.

Lemma ingress_run_written K ingress_name ingress_body w r evs c m :
  ingress_run K ingress_name ingress_body w r evs ->
  In c (invocations evs) -> submitted_body c = Some m ->
  exists paths data,
    _update_ingress_paths ingress_body = Return paths
    /\ K w (list_namespaced_ingress_with_http_info "default") = Return (data, 200%Z)
    /\ m = ingress_manifest ingress_name paths
    /\ evs = [Invoked (list_namespaced_ingress_with_http_info "default"); Invoked c]
    /\ c = (if contains ingress_name
                 (map (fun ele => client.name (client.metadata ele)) (client.items data))
            then replace_namespaced_ingress_with_http_info ingress_name "default" m
            else create_namespaced_ingress_with_http_info "default" m).
Proof.
  intros Hcase Hin Hm.
  destruct Hcase as [e Hb|paths e Hb Hl|paths data status Hb Hl Hs|paths data c' Hb Hl Hc].
  - destruct Hin.
  - destruct Hin as [<-|[]]. discriminate.
  - destruct Hin as [<-|[]]. discriminate.
  - destruct Hin as [<-|[<-|[]]]; [discriminate|].
    exists paths, data. subst c'.
    destruct (contains _ _); injection Hm as <-; done.
Qed.

(** X13.  What [update_ingress] submits.  Every manifest sent with a create
    or a replace is built from [ingress_name] and the converted paths alone
    (nothing of the listing enters it): API version
    [networking.k8s.io/v1beta1], kind [Ingress], the name [ingress_name],
    the one annotation [rewrite-target: /] and exactly one rule.  A replace
    addresses the name that the manifest carries. *)
Theorem submitted_manifest_identity (K : control_plane) (ingress_name : string)
    (ingress_body : json) (w : trace) :
  exists evs,
    snd (update_ingress K ingress_name ingress_body w) = w ++ evs
    /\ forall c m,
         In c (invocations evs) -> submitted_body c = Some m ->
         (exists paths,
            _update_ingress_paths ingress_body = Return paths
            /\ m = ingress_manifest ingress_name paths)
         /\ client.api_version m = "networking.k8s.io/v1beta1"
         /\ client.kind m = "Ingress"
         /\ client.name (client.metadata m) = ingress_name
         /\ client.annotations (client.metadata m)
            = [("nginx.ingress.kubernetes.io/rewrite-target", "/")]
         /\ length (client.rules (client.spec m)) = 1
         /\ (forall n, replaced_name c = Some n -> n = client.name (client.metadata m)).
Proof.
  destruct (update_ingress_run K ingress_name ingress_body w) as (r & evs & Hrun & Hcase).
  exists evs. split; [by rewrite Hrun|].
  intros c m Hin Hm.
  destruct (ingress_run_written _ _ _ _ _ _ _ _ Hcase Hin Hm)
    as (paths & data & Hb & Hl & -> & _ & Hc).
  split; [by exists paths|]. do 5 (split; [reflexivity|]).
  intros n Hn. subst c. destruct (contains _ _); [|discriminate]. by injection Hn as <-.
Qed.

(** ** _update_ingress_paths: the first entry that cannot be converted *)

Lemma paths_loop_raises path_infos : forall acc e,
  paths_loop path_infos acc = Raise e
  <-> exists i path_info,
        path_infos !! i = Some path_info
        /\ path_obj_of path_info = Raise e
        /\ forall j pj, j < i -> path_infos !! j = Some pj -> is_raise (path_obj_of pj) = false.
Proof.
  induction path_infos as [|x rest IH]; intros acc e; cbn [paths_loop].
  - split; [done|]. by intros (i & pi & Hi & _).
  - destruct (path_obj_of x) as [o|e0] eqn:Hx; cbn [obind].
    + rewrite IH. split.
      * intros (i & pi & Hi & Hpi & Hbefore). exists (S i), pi. split; [done|]. split; [done|].
        intros [|j] pj Hj Hpj.
        -- injection Hpj as <-. by rewrite Hx.
        -- apply (Hbefore j); [lia|done].
      * intros ([|i] & pi & Hi & Hpi & Hbefore).
        -- injection Hi as <-. congruence.
        -- exists i, pi. split; [done|]. split; [done|].
           intros j pj Hj Hpj. apply (Hbefore (S j)); [lia|done].
    + split.
      * intros [= <-]. exists 0, x. split; [done|]. split; [done|]. intros j pj Hj. lia.
      * intros ([|i] & pi & Hi & Hpi & Hbefore).
        -- injection Hi as <-. congruence.
        -- specialize (Hbefore 0 x ltac:(lia) eq_refl). by rewrite Hx in Hbefore.
Qed.

(** X14.  [_update_ingress_paths] stops at the first path rule it cannot
    convert.  It raises [e] exactly when some entry raises [e] and every
    entry before it converts; [update_ingress] then raises [e] without any
    call to the cluster.  When it returns, it returns as many paths as
    there are entries.  An entry that has its three fields converts unless
    its [serviceName] or its [servicePort] is [None], which the constructor
    of the backend refuses with a [ValueError], the name being checked
    first. *)
Theorem paths_fail_fast (K : control_plane) (ingress_name : string) (ingress_body : json)
    (w : trace) (path_infos : list json) :
  path_infos_of ingress_body = Return path_infos ->
  (forall e,
     _update_ingress_paths ingress_body = Raise e
     <-> exists i path_info,
           path_infos !! i = Some path_info
           /\ path_obj_of path_info = Raise e
           /\ forall j pj, j < i -> path_infos !! j = Some pj ->
                is_raise (path_obj_of pj) = false)
  /\ (forall e,
        _update_ingress_paths ingress_body = Raise e ->
        update_ingress K ingress_name ingress_body w = (Raise e, w))
  /\ (forall paths,
        _update_ingress_paths ingress_body = Return paths ->
        length paths = length path_infos)
  /\ (forall entry p b port sname,
        getitem entry "path" = Return p ->
        getitem entry "backend" = Return b ->
        getitem b "servicePort" = Return port ->
        getitem b "serviceName" = Return sname ->
        path_obj_of entry
        = if client.is_None sname
          then Raise (ValueError "Invalid value for `service_name`, must not be `None`")
          else if client.is_None port
          then Raise (ValueError "Invalid value for `service_port`, must not be `None`")
          else Return {| client.path := p;
                         client.backend := {| client.service_port := port;
                                              client.service_name := sname |} |}).
Proof.
  intros Hinfos. split; [|split; [|split]].
  - intros e. unfold _update_ingress_paths. rewrite Hinfos. cbn [obind].
    apply paths_loop_raises.
  - intros e. apply update_ingress_bad_body.
  - intros paths. unfold _update_ingress_paths. rewrite Hinfos. cbn [obind]. intros Hp.
    destruct (paths_loop_converts _ _ _ Hp) as (new & -> & Hall).
    symmetry. exact (Forall2_length _ _ _ Hall).
  - intros entry p b port sname Hp Hb Hport Hname. unfold path_obj_of.
    rewrite Hp. cbn [obind]. rewrite Hb. cbn [obind]. rewrite Hport. cbn [obind].
    rewrite Hname. cbn [obind]. unfold client.NetworkingV1beta1IngressBackend__init__.
    destruct (client.is_None sname); [done|]. by destruct (client.is_None port).
Qed.

Lemma paths_fail_fast_witness :
  _update_ingress_paths
    (body_of [rule_of [path_info "/a" "svc1" 80;
                       JDict [("path", JStr "/b");
                              ("backend", JDict [("serviceName", JNone);
                                                 ("servicePort", JInt 81)])];
                       JStr "not a path rule"]])
  = Raise (ValueError "Invalid value for `service_name`, must not be `None`")
  /\ update_ingress (listing [] 200) "ing1"
       (body_of [rule_of [path_info "/a" "svc1" 80;
                          JDict [("path", JStr "/b");
                                 ("backend", JDict [("serviceName", JNone);
                                                    ("servicePort", JInt 81)])];
                          JStr "not a path rule"]]) []
     = (Raise (ValueError "Invalid value for `service_name`, must not be `None`"), []).
Proof.
  destruct (paths_fail_fast (listing [] 200) "ing1"
              (body_of [rule_of [path_info "/a" "svc1" 80;
                                 JDict [("path", JStr "/b");
                                        ("backend", JDict [("serviceName", JNone);
                                                           ("servicePort", JInt 81)])];
                                 JStr "not a path rule"]]) []
              _ eq_refl) as (Hiff & Hcall & _ & Hentry).
  assert (_update_ingress_paths
            (body_of [rule_of [path_info "/a" "svc1" 80;
                               JDict [("path", JStr "/b");
                                      ("backend", JDict [("serviceName", JNone);
                                                         ("servicePort", JInt 81)])];
                               JStr "not a path rule"]])
          = Raise (ValueError "Invalid value for `service_name`, must not be `None`")) as Hraise.
  { apply Hiff.
    exists 1, (JDict [("path", JStr "/b");
                      ("backend", JDict [("serviceName", JNone); ("servicePort", JInt 81)])]).
    split; [reflexivity|]. split.
    - apply (Hentry _ (JStr "/b") (JDict [("serviceName", JNone); ("servicePort", JInt 81)])
               (JInt 81) JNone); reflexivity.
    - intros [|j] pj Hj Hpj; [|lia]. injection Hpj as <-. reflexivity. }
  split; [exact Hraise|]. apply Hcall. exact Hraise.
Defined.

(** X15.  An empty list of path rules is not refused.  When the [paths] of
    the first rule is an empty list (or an empty dict, or an empty string:
    anything that iterates over nothing), the conversion returns no path,
    and [update_ingress], after a listing that answers 200, submits a
    manifest whose one rule has no path. *)
Theorem empty_path_list_is_submitted (K : control_plane) (ingress_name : string)
    (ingress_body : json) (w : trace) rule extra http paths_value data :
  ingress_rules ingress_body = Return (JList (rule :: extra)) ->
  getitem rule "http" = Return http ->
  getitem http "paths" = Return paths_value ->
  paths_value = JList [] \/ paths_value = JDict [] \/ paths_value = JStr "" ->
  K w (list_namespaced_ingress_with_http_info "default") = Return (data, 200%Z) ->
  _update_ingress_paths ingress_body = Return []
  /\ exists c,
       snd (update_ingress K ingress_name ingress_body w)
       = w ++ [Invoked (list_namespaced_ingress_with_http_info "default"); Invoked c]
       /\ submitted_body c = Some (ingress_manifest ingress_name [])
       /\ submitted_rules c = Some [ {| client.http := {| client.paths := [] |} |} ].
Proof.
  intros Hrules Hhttp Hpaths Hempty Hl.
  assert (_update_ingress_paths ingress_body = Return []) as Hb.
  { unfold _update_ingress_paths. rewrite (path_infos_of_first_rule _ _ _ Hrules), Hhttp.
    cbn [obind]. rewrite Hpaths. cbn [obind]. by destruct Hempty as [->|[->| ->]]. }
  split; [exact Hb|].
  destruct (update_ingress_run K ingress_name ingress_body w) as (r & evs & Hrun & Hcase).
  rewrite Hrun. cbn [snd].
  destruct Hcase as [e Hb'|paths e Hb' Hl'|paths d status Hb' Hl' Hs|paths d c Hb' Hl' ->];
    rewrite Hb in Hb'; try discriminate; injection Hb' as <-; rewrite Hl in Hl';
    try discriminate.
  - injection Hl' as _ <-. done.
  - eexists. split; [reflexivity|]. by destruct (contains _ _).
Qed.

Lemma empty_path_list_is_submitted_witness :
  _update_ingress_paths (body_of [JDict [("http", JDict [("paths", JDict [])])]]) = Return []
  /\ exists c,
       snd (update_ingress (listing ["ing1"] 200) "ing1"
              (body_of [JDict [("http", JDict [("paths", JDict [])])]]) [])
       = [] ++ [Invoked (list_namespaced_ingress_with_http_info "default"); Invoked c]
       /\ submitted_body c = Some (ingress_manifest "ing1" [])
       /\ submitted_rules c = Some [ {| client.http := {| client.paths := [] |} |} ].
Proof.
  apply (empty_path_list_is_submitted (listing ["ing1"] 200) "ing1"
           (body_of [JDict [("http", JDict [("paths", JDict [])])]]) []
           (JDict [("http", JDict [("paths", JDict [])])]) [] (JDict [("paths", JDict [])])
           (JDict []) _ eq_refl eq_refl eq_refl (or_intror (or_introl eq_refl)) eq_refl).
Defined.

(** ** The namespace *)

(** X16.  The manager keeps to the namespace [default], and each method to
    its own operations: every invocation of [create_service] is a creation
    of a network-service or of a workload, every invocation of
    [destroy_service] a deletion of a workload or of a network-service,
    every invocation of [update_ingress] a listing, a replace or a create of
    a rule set; all of them in [default]. *)
Theorem calls_stay_in_default_namespace (K : control_plane) (w : trace) :
  (forall service_name docker_image replicas args environment_vars mounts publish_port gpus,
     exists evs,
       snd (create_service K service_name docker_image replicas args environment_vars mounts
              publish_port gpus w) = w ++ evs
       /\ forall c, In c (invocations evs) ->
            namespace_of c = "default"
            /\ (verb_of c = CreateService \/ verb_of c = CreateWorkload))
  /\ (forall service,
        exists evs,
          snd (destroy_service K service w) = w ++ evs
          /\ forall c, In c (invocations evs) ->
               namespace_of c = "default"
               /\ (verb_of c = DeleteWorkload \/ verb_of c = DeleteService))
  /\ (forall ingress_name ingress_body,
        exists evs,
          snd (update_ingress K ingress_name ingress_body w) = w ++ evs
          /\ forall c, In c (invocations evs) ->
               namespace_of c = "default"
               /\ (verb_of c = ListRules \/ verb_of c = ReplaceRule \/ verb_of c = CreateRule)).
Proof.
  split; [|split].
  - intros service_name docker_image replicas args environment_vars mounts publish_port gpus.
    destruct (create_service_run K service_name docker_image replicas args environment_vars
                mounts publish_port gpus w)
      as (r & evs1 & evs2 & a & b & Hrun & Ha & Hb & _).
    exists (evs1 ++ evs2). split; [by rewrite Hrun|].
    intros c. rewrite invocations_app, Ha, Hb, in_app_iff.
    intros [Hin|Hin]; apply repeat_spec in Hin; subst c; cbn; auto.
  - intros service. unfold destroy_service, bind, call, ret.
    destruct (K w _) as [v1|e1].
    + destruct (K _ _) as [v2|e2]; eexists [_; _]; rewrite <- app_assoc;
        (split; [reflexivity|]); intros c [<-|[<-|[]]]; cbn; auto.
    + eexists [_]. split; [reflexivity|]. intros c [<-|[]]; cbn; auto.
  - intros ingress_name ingress_body.
    destruct (update_ingress_run K ingress_name ingress_body w) as (r & evs & Hrun & Hcase).
    exists evs. split; [by rewrite Hrun|].
    destruct Hcase as [e Hb|paths e Hb Hl|paths data status Hb Hl Hs|paths data c' Hb Hl ->].
    + by intros c [].
    + intros c [<-|[]]; cbn; auto.
    + intros c [<-|[]]; cbn; auto.
    + intros c [<-|[<-|[]]]; [cbn; auto|]. destruct (contains _ _); cbn; auto.
Qed.

(** ** The constructor *)

Import Setup.

(** X17.  The constructor checks nothing but the token file.  It raises
    exactly when the token cannot be read, whatever the environment holds;
    a variable that is not set shows in the host as the text [None], so
    that the manager is the one built with the variable set to that text.
    In a manager that was built, the three handles share one client, whose
    configuration has certificate verification off and as credential
    [Bearer] followed by the content of the file as it was read; managers
    with the same credential were built from the same token. *)
Theorem init_trusts_its_surroundings (s : surroundings) :
  is_raised (__init__ s)
  = is_raised (files s "/var/run/secrets/kubernetes.io/serviceaccount/token")
  /\ (getenv s "KUBERNETES_SERVICE_HOST" = None ->
        __init__ s = __init__ (setenv "KUBERNETES_SERVICE_HOST" "None" s))
  /\ (getenv s "KUBERNETES_SERVICE_PORT" = None ->
        __init__ s = __init__ (setenv "KUBERNETES_SERVICE_PORT" "None" s))
  /\ (forall self,
        __init__ s = Content self ->
        api_client_of (_client_service self) = api_client_of (_client_deployment self)
        /\ api_client_of (api_instance self) = api_client_of (_client_deployment self)
        /\ verify_ssl (configuration (api_client_of (_client_deployment self))) = false
        /\ exists aToken,
             files s "/var/run/secrets/kubernetes.io/serviceaccount/token" = Content aToken
             /\ api_key (configuration (api_client_of (_client_deployment self)))
                = [("authorization", "Bearer " +:+ aToken)])
  /\ (forall s' self self',
        __init__ s = Content self -> __init__ s' = Content self' ->
        api_key (configuration (api_client_of (_client_deployment self)))
        = api_key (configuration (api_client_of (_client_deployment self'))) ->
        files s "/var/run/secrets/kubernetes.io/serviceaccount/token"
        = files s' "/var/run/secrets/kubernetes.io/serviceaccount/token").
Proof.
  unfold __init__.
  split; [by destruct (files s _)|].
  split; [|split; [|split]].
  - intros Hh. unfold getenv in *. cbn. by rewrite Hh.
  - intros Hp. unfold getenv in *. cbn. by rewrite Hp.
  - intros self. destruct (files s _) as [aToken|ex]; [|done].
    intros [= <-]. cbn. repeat split. by exists aToken.
  - intros s' self self'.
    destruct (files s _) as [t|ex]; [|done]. destruct (files s' _) as [t'|ex']; [|done].
    intros [= <-] [= <-]. cbn. intros [= Heq]. by f_equal.
Qed.

(** ** Runs on concrete control planes *)

(** Scenario A of the specification: two replicas, no mounts, no port, no
    GPU. *)
Example scenario_A_manifest :
  (let+ g := build (_create_deployment_config "svc1" "img:1" 2 [] [] [] None 0) in
   match tree_of g with Some t => Return t | None => Raise TypeError end)
  = Return
      (JDict
         [("apiVersion", JStr "apps/v1"); ("kind", JStr "Deployment");
          ("metadata", JDict [("name", JStr "svc1"); ("labels", JDict [("name", JStr "svc1")])]);
          ("spec", JDict
             [("replicas", JInt 2);
              ("selector", JDict [("matchLabels", JDict [("name", JStr "svc1")])]);
              ("template", JDict
                 [("metadata", JDict [("labels", JDict [("name", JStr "svc1")])]);
                  ("spec", JDict
                     [("containers",
                       JList [JDict [("name", JStr "svc1"); ("image", JStr "img:1");
                                     ("volumeMounts", JList []); ("env", JList [])]]);
                      ("volumes", JList [])])])])]).
Proof. vm_compute. reflexivity. Qed.

Example scenario_A_calls :
  invocations (snd (create_service (down_for 0) "svc1" "img:1" 2 [] [] [] None 0 []))
  = [create_namespaced_deployment "default"
       (Graph (deployment_heap "svc1" "img:1" 2 [] [] 0) (VRef 0))].
Proof. vm_compute. reflexivity. Qed.

(** Two refusals, then a success: three invocations, two waits. *)
Example retry_after_two_refusals :
  _retry (call (down_for 2) (delete_namespaced_service "svc1" "default")) []
  = (Return (Some (JStr "ok")),
     failed_attempt (delete_namespaced_service "svc1" "default")
       (ApiException 503 "Service Unavailable") 1
     ++ failed_attempt (delete_namespaced_service "svc1" "default")
          (ApiException 503 "Service Unavailable") 1
     ++ [Invoked (delete_namespaced_service "svc1" "default")]).
Proof. vm_compute. reflexivity. Qed.

(** The workload is deleted, the deletion of the network-service is refused:
    the error reaches the caller, nothing is undone. *)
Example partial_deletion :
  destroy_service (refusing DeleteService)
    {| id := "svc1"; hostname := "svc1"; exposed_port := None; info := [] |} []
  = (Raise (ApiException 500 "Internal Server Error"),
     [Invoked (delete_namespaced_deployment "svc1" "default");
      Invoked (delete_namespaced_service "svc1" "default")]).
Proof. vm_compute. reflexivity. Qed.

(** The network-service is created, the workload is refused six times: the
    network-service stays. *)
Example orphaned_service :
  let r := create_service (refusing CreateWorkload) "svc1" "img:1" 2 [] [] []
             (Some (30080, 8080)%Z) 0 [] in
  is_raise (fst r) = true
  /\ times CreateService (snd r) = 1
  /\ times CreateWorkload (snd r) = 6
  /\ times DeleteService (snd r) = 0.
Proof. vm_compute. repeat split; reflexivity. Qed.

(** A body that is not a rule set: the error of the conversion, no call. *)
Example malformed_body :
  update_ingress (listing [] 200) "ing1" (JDict [("spec", JDict [("rules", JList [])])]) []
  = (Raise IndexError, []).
Proof. reflexivity. Qed.
